(** * RuneScribe: the execution runtime

    A shallow embedding of the runtime of the RuneScribe interpreter
    (ast_nodes/ritual_nodes.py, interpreter/variable_storage.py,
    interpreter/execution_engine.py, interpreter/spell_interpreter.py),
    and the properties of it that the specification states.

    Python objects are modelled by the inductive type [value], Python
    exceptions by [exn], and a call that may raise by [outcome].
    A method that mutates [self] before it raises returns the outcome
    together with the object as the exception leaves it. *)

From Stdlib Require Import ZArith List String Ascii Bool Lia Floats DecimalString.
Import ListNotations.

Set Warnings "-register-all".

Local Open Scope string_scope.
Local Open Scope list_scope.
Local Open Scope Z_scope.

(** ** ast_nodes/ritual_nodes.py: the enumerations and the statement nodes *)

Inductive RealmType : Type :=
| MORTAL | SPIRIT | SHADOW | VOID | ASTRAL | DIVINE | TEMPORAL.

Inductive OperationType : Type :=
| UNION | DIFFERENCE | FUSION | DIVISION | POWER | ESSENCE
| GREATER_THAN | LESS_THAN | EQUALS | NOT_EQUALS.

Definition RealmType_eqb (a b : RealmType) : bool :=
  match a, b with
  | MORTAL, MORTAL | SPIRIT, SPIRIT | SHADOW, SHADOW | VOID, VOID
  | ASTRAL, ASTRAL | DIVINE, DIVINE | TEMPORAL, TEMPORAL => true
  | _, _ => false
  end.

(** [RealmType.value]: the text of an enumeration member. *)
Definition RealmType_value (r : RealmType) : string :=
  match r with
  | MORTAL => "mortal" | SPIRIT => "spirit" | SHADOW => "shadow"
  | VOID => "void" | ASTRAL => "astral" | DIVINE => "divine"
  | TEMPORAL => "temporal"
  end.

(** [ComparisonNode]'s fields; a condition is a comparison or a text. *)
Record Comparison : Type := mkComparison {
  cmp_left : string;
  cmp_operation : OperationType;
  cmp_right : string
}.

Inductive Condition : Type :=
| CondComparison (c : Comparison)
| CondText (s : string).

(** The subclasses of [SpellNode]. *)
Inductive SpellNode : Type :=
| InvokeNode (variables : list string) (realm : RealmType)
| ChannelNode (variable : string)
| WeaveNode (variable : string)
| ManifestNode (operation : OperationType) (operands : list string)
               (result_variable : string)
| SpeakNode (variable : string) (target : string)
| ConditionalNode (condition : Condition) (then_statements : list SpellNode)
                  (else_statements : option (list SpellNode))
| WhileLoopNode (condition : Condition) (body_statements : list SpellNode)
| ComparisonNode (c : Comparison)
| SpellProgramNode (statements : list SpellNode).

(** [type(statement)]: the class of a node, as the error message of
    [execute_statement] names it. *)
Inductive NodeClass : Type :=
| CInvokeNode | CChannelNode | CWeaveNode | CManifestNode | CSpeakNode
| CConditionalNode | CWhileLoopNode | CComparisonNode | CSpellProgramNode.

Definition type_of_node (n : SpellNode) : NodeClass :=
  match n with
  | InvokeNode _ _ => CInvokeNode
  | ChannelNode _ => CChannelNode
  | WeaveNode _ => CWeaveNode
  | ManifestNode _ _ _ => CManifestNode
  | SpeakNode _ _ => CSpeakNode
  | ConditionalNode _ _ _ => CConditionalNode
  | WhileLoopNode _ _ => CWhileLoopNode
  | ComparisonNode _ => CComparisonNode
  | SpellProgramNode _ => CSpellProgramNode
  end.

(** ** Text: the methods of [str] the runtime calls

    A text is a [string] whose characters are the code points below 256. *)
Module PyStr.

Definition code (c : ascii) : nat := nat_of_ascii c.

Definition between (lo hi : nat) (c : ascii) : bool :=
  (Nat.leb lo (code c) && Nat.leb (code c) hi)%bool.

(** [str.lower] on one character: A-Z, and the capital letters of Latin-1. *)
Definition lower_char (c : ascii) : ascii :=
  if (between 65 90 c
      || (between 192 222 c && negb (Nat.eqb (code c) 215)))%bool
  then ascii_of_nat (code c + 32)
  else c.

Fixpoint lower (s : string) : string :=
  match s with
  | EmptyString => EmptyString
  | String c s' => String (lower_char c) (lower s')
  end.

(** [c in s] for a one-character [c]. *)
Fixpoint contains_char (c : ascii) (s : string) : bool :=
  match s with
  | EmptyString => false
  | String d s' => (Ascii.eqb c d || contains_char c s')%bool
  end.

Definition startswith_char (c : ascii) (s : string) : bool :=
  match s with
  | String d _ => Ascii.eqb c d
  | EmptyString => false
  end.

Fixpoint endswith_char (c : ascii) (s : string) : bool :=
  match s with
  | EmptyString => false
  | String d EmptyString => Ascii.eqb c d
  | String _ s' => endswith_char c s'
  end.

(** [x in [a, b, ...]] for texts. *)
Definition in_list (x : string) (l : list string) : bool :=
  existsb (String.eqb x) l.

(** [all(c in '01' for c in s)]. *)
Fixpoint all_binary (s : string) : bool :=
  match s with
  | EmptyString => true
  | String c s' =>
      ((Ascii.eqb c "0" || Ascii.eqb c "1") && all_binary s')%bool
  end.

(** [s.split(c)]: the fragments between the occurrences of [c]. *)
Fixpoint split_on (c : ascii) (s : string) : list string :=
  match s with
  | EmptyString => [EmptyString]
  | String d s' =>
      if Ascii.eqb c d then EmptyString :: split_on c s'
      else match split_on c s' with
           | [] => [String d EmptyString]
           | f :: fs => String d f :: fs
           end
  end.

(** [s.replace(sub, "")]: every occurrence of [sub], found from the left
    and not overlapping, is dropped; [skip] counts the characters of an
    occurrence still to drop. An empty [sub] leaves [s] as it is. *)
Fixpoint remove_from (sub : string) (skip : nat) (s : string) : string :=
  match s with
  | EmptyString => EmptyString
  | String c s' =>
      match skip with
      | S k => remove_from sub k s'
      | O =>
          if String.prefix sub s
          then remove_from sub (Nat.pred (String.length sub)) s'
          else String c (remove_from sub O s')
      end
  end.

Definition remove_all (s sub : string) : string :=
  match sub with
  | EmptyString => s
  | _ => remove_from sub O s
  end.

(** [s * n]: repetition, empty when [n <= 0]. *)
Fixpoint repeat_nat (s : string) (n : nat) : string :=
  match n with
  | O => EmptyString
  | S k => s ++ repeat_nat s k
  end.

Definition repeat (s : string) (n : Z) : string := repeat_nat s (Z.to_nat n).

(** White space as [int] skips it: the characters for which
    [str.isspace] holds. *)
Definition is_space (c : ascii) : bool :=
  (between 9 13 c || between 28 32 c
   || Nat.eqb (code c) 133 || Nat.eqb (code c) 160)%bool.

Fixpoint lstrip (l : list ascii) : list ascii :=
  match l with
  | c :: l' => if is_space c then lstrip l' else l
  | [] => []
  end.

Definition digit_value (c : ascii) : option Z :=
  if between 48 57 c then Some (Z.of_nat (code c) - 48) else None.

Definition digit_in (base : Z) (c : ascii) : option Z :=
  match digit_value c with
  | Some d => if d <? base then Some d else None
  | None => None
  end.

(** The digits after the first: single underscores between digits, then
    white space to the end of the text. *)
Fixpoint scan_digits (base acc : Z) (after_underscore : bool)
                     (l : list ascii) : option Z :=
  match l with
  | [] => if after_underscore then None else Some acc
  | c :: l' =>
      if Ascii.eqb c "_"
      then (if after_underscore then None
            else scan_digits base acc true l')
      else match digit_in base c with
           | Some d => scan_digits base (acc * base + d) false l'
           | None =>
               if after_underscore then None
               else if forallb is_space l then Some acc else None
           end
  end.

(** [int(s, base)] for [base] 2 or 10 ([None]: ValueError): white space,
    a sign, a digit, digits with single underscores, white space. The
    prefix [0b] and the limit on the number of digits are left out: the
    runtime passes base 2 only texts made of [0] and [1]. *)
Definition to_int (base : Z) (s : string) : option Z :=
  let l := lstrip (list_ascii_of_string s) in
  let '(sign, l) :=
    match l with
    | c :: l' =>
        if Ascii.eqb c "+" then (1, l')
        else if Ascii.eqb c "-" then (-1, l')
        else (1, l)
    | [] => (1, l)
    end in
  match l with
  | c :: l' =>
      match digit_in base c with
      | Some d => option_map (Z.mul sign) (scan_digits base d false l')
      | None => None
      end
  | [] => None
  end.

(** [str(n)] for an integer. *)
Definition of_int (z : Z) : string := NilZero.string_of_int (Z.to_int z).

(** [sep.join(l)]. *)
Fixpoint join (sep : string) (l : list string) : string :=
  match l with
  | [] => EmptyString
  | s :: l' =>
      match l' with
      | [] => s
      | _ => (s ++ sep ++ join sep l')%string
      end
  end.

(** [sub in s] for texts: [sub] starts at some place of [s]. *)
Fixpoint contains (sub s : string) : bool :=
  (String.prefix sub s
   || match s with
      | EmptyString => false
      | String _ s' => contains sub s'
      end)%bool.

End PyStr.

(** ** The Python objects, exceptions and operators the runtime uses *)

(** A [datetime] object, by its fields. *)
Record datetime : Type := mkDatetime {
  dt_year : Z; dt_month : Z; dt_day : Z;
  dt_hour : Z; dt_minute : Z; dt_second : Z; dt_microsecond : Z;
  dt_utcoffset : option Z
}.

(** The objects a spirit's essence can be: [int], [float] (a binary64
    number), [str], [bool], [None], [list], [dict] and [datetime]. *)
Inductive value : Type :=
| VInt (z : Z)
| VFloat (f : float)
| VStr (s : string)
| VBool (b : bool)
| VNone
| VList (l : list value)
| VDict (d : list (value * value))
| VDatetime (t : datetime).

(** The exceptions of Python's builtins. *)
Inductive builtin_exception : Type :=
| PyValueError | PyTypeError | PyOverflowError | PyZeroDivisionError
| PySyntaxError | PyNameError | PyEOFError | PyKeyError | PyOtherException
| PySystemExit | PyKeyboardInterrupt.

(** The exceptions the runtime sees: the [ValueError]s it raises itself,
    each with the message the source gives it, and those of builtins. *)
Inductive exn : Type :=
| CannotManifestEssence
    (* "Cannot manifest essence without channeled essence" *)
| CannotManifestWithoutBoth
    (* "Cannot manifest without both channeled essence and woven force" *)
| CannotDivideByZero
    (* "Cannot divide by zero - the void consumes all!" *)
| UnknownMysticalOperation (op : OperationType)
    (* "Unknown mystical operation: {operation}" *)
| MysticalOperationFailed (cause : exn)
    (* "Mystical operation failed: {e}" *)
| SpiritNotSummonedUseInvoke (name : string)
    (* "Spirit '{name}' has not been summoned. Use INVOKE first." *)
| SpiritNotSummoned (name : string)
    (* "Spirit '{name}' has not been summoned." *)
| UnknownStatementType (c : NodeClass)
    (* "Unknown statement type: {type(statement)}" *)
| BuiltinError (b : builtin_exception).

(** [isinstance(e, Exception)]: what [except Exception] catches.
    [SystemExit] and [KeyboardInterrupt] derive from [BaseException]
    only. *)
Definition is_Exception (e : exn) : bool :=
  match e with
  | BuiltinError PySystemExit | BuiltinError PyKeyboardInterrupt => false
  | _ => true
  end.

Definition is_ValueError (e : exn) : bool :=
  match e with
  | BuiltinError PyValueError => true
  | BuiltinError _ => false
  | _ => true
  end.

(** The result of a call: a returned object or a raised exception. *)
Inductive outcome (A : Type) : Type :=
| Return (a : A)
| Raise (e : exn).
Arguments Return {A} a.
Arguments Raise {A} e.

Definition py_bind {A B : Type} (o : outcome A) (k : A -> outcome B) : outcome B :=
  match o with
  | Return a => k a
  | Raise e => Raise e
  end.

(** [try: body  except <class>: handler], for the classes [catches]
    holds of. *)
Definition try_except {A : Type} (body : outcome A) (catches : exn -> bool)
                      (handler : exn -> outcome A) : outcome A :=
  match body with
  | Return a => Return a
  | Raise e => if catches e then handler e else Raise e
  end.

Declare Scope py_scope.
Delimit Scope py_scope with py.
Notation "x <- c ;; k" := (py_bind c (fun x => k))
  (at level 100, c at next level, right associativity) : py_scope.

(** The builtins whose results are taken as given: the text of a number
    read as a [float], [int / int], [**] beyond the integers,
    [datetime.fromisoformat], [eval] and the text of an object other than
    an [int], a [str], a [bool] or [None]. *)
Class Builtins : Type := {
  float_of_str : string -> option float;
  int_truediv : Z -> Z -> outcome float;
  float_pow : value -> value -> outcome value;
  fromisoformat : string -> outcome datetime;
  py_eval : string -> outcome value;
  str_other : value -> string
}.

(** *** [isinstance] *)

Definition is_str (v : value) : bool :=
  match v with VStr _ => true | _ => false end.

Definition is_bool (v : value) : bool :=
  match v with VBool _ => true | _ => false end.

(** [isinstance(v, int)]: [bool] is a subclass of [int]. *)
Definition is_int (v : value) : bool :=
  match v with VInt _ | VBool _ => true | _ => false end.

(** [isinstance(v, (int, float))]. *)
Definition is_int_or_float (v : value) : bool :=
  match v with VInt _ | VBool _ | VFloat _ => true | _ => false end.

Definition is_list (v : value) : bool :=
  match v with VList _ => true | _ => false end.

(** [v is None]. *)
Definition is_None (v : value) : bool :=
  match v with VNone => true | _ => false end.

(** *** Numbers *)

Inductive number : Type :=
| NInt (z : Z)
| NFloat (f : float).

Definition as_number (v : value) : option number :=
  match v with
  | VInt z => Some (NInt z)
  | VBool b => Some (NInt (Z.b2z b))
  | VFloat f => Some (NFloat f)
  | _ => None
  end.

(** [float(n)] for an integer: the nearest binary64 number, ties to
    even; OverflowError when that is no finite number. *)
Definition float_of_Z (z : Z) : outcome float :=
  let f := SF2Prim (binary_normalize 53 1024 z 0 false) in
  if PrimFloat.is_infinity f then Raise (BuiltinError PyOverflowError)
  else Return f.

Definition float_of_number (n : number) : outcome float :=
  match n with
  | NInt z => float_of_Z z
  | NFloat f => Return f
  end.

(** [f == 0] for a float. *)
Definition float_is_zero (f : float) : bool := PrimFloat.eqb f PrimFloat.zero.

(** [v == 0] for a number. *)
Definition eq_zero (v : value) : bool :=
  match as_number v with
  | Some (NInt z) => z =? 0
  | Some (NFloat f) => float_is_zero f
  | None => false
  end.

(** [bool(v)]. *)
Definition truthy (v : value) : bool :=
  match v with
  | VInt z => negb (z =? 0)
  | VFloat f => negb (float_is_zero f)
  | VStr s => negb (String.eqb s "")
  | VBool b => b
  | VNone => false
  | VList l => match l with [] => false | _ => true end
  | VDict d => match d with [] => false | _ => true end
  | VDatetime _ => true
  end.

(** [a or b], [a and b]: one of the operands, not a new [bool]. *)
Definition py_or (a b : value) : value := if truthy a then a else b.
Definition py_and (a b : value) : value := if truthy a then b else a.
Definition py_not (a : value) : value := VBool (negb (truthy a)).

Fixpoint repeat_list (l : list value) (n : nat) : list value :=
  match n with
  | O => []
  | S k => l ++ repeat_list l k
  end.

Section Operators.
Context {B : Builtins}.
Local Open Scope py_scope.

(** [str(v)]. *)
Definition py_str (v : value) : string :=
  match v with
  | VStr s => s
  | VInt z => PyStr.of_int z
  | VBool true => "True"
  | VBool false => "False"
  | VNone => "None"
  | _ => str_other v
  end.

(** [float(v)]: ValueError for a text that is no number, TypeError for
    an object that is neither a number nor a text. *)
Definition py_float (v : value) : outcome float :=
  match v with
  | VStr s =>
      match float_of_str s with
      | Some f => Return f
      | None => Raise (BuiltinError PyValueError)
      end
  | _ =>
      match as_number v with
      | Some n => float_of_number n
      | None => Raise (BuiltinError PyTypeError)
      end
  end.

(** An arithmetic operator on two numbers: on integers when both are,
    else on their floats. *)
Definition arith (fi : Z -> Z -> outcome value)
                 (ff : float -> float -> outcome value)
                 (a b : number) : outcome value :=
  match a, b with
  | NInt x, NInt y => fi x y
  | _, _ =>
      x <- float_of_number a ;;
      y <- float_of_number b ;;
      ff x y
  end.

(** [a + b]. *)
Definition py_add (a b : value) : outcome value :=
  match as_number a, as_number b with
  | Some x, Some y =>
      arith (fun x y => Return (VInt (x + y)))
            (fun x y => Return (VFloat (PrimFloat.add x y))) x y
  | _, _ =>
      match a, b with
      | VStr s, VStr t => Return (VStr (s ++ t))
      | VList l, VList m => Return (VList (l ++ m))
      | _, _ => Raise (BuiltinError PyTypeError)
      end
  end.

(** [a - b], for the operands the runtime subtracts: numbers. *)
Definition py_sub (a b : value) : outcome value :=
  match as_number a, as_number b with
  | Some x, Some y =>
      arith (fun x y => Return (VInt (x - y)))
            (fun x y => Return (VFloat (PrimFloat.sub x y))) x y
  | _, _ => Raise (BuiltinError PyTypeError)
  end.

(** [a * b]: numbers, and the repetition of a text or a list. *)
Definition py_mul (a b : value) : outcome value :=
  match as_number a, as_number b with
  | Some x, Some y =>
      arith (fun x y => Return (VInt (x * y)))
            (fun x y => Return (VFloat (PrimFloat.mul x y))) x y
  | Some (NInt n), None =>
      match b with
      | VStr s => Return (VStr (PyStr.repeat s n))
      | VList l => Return (VList (repeat_list l (Z.to_nat n)))
      | _ => Raise (BuiltinError PyTypeError)
      end
  | None, Some (NInt n) =>
      match a with
      | VStr s => Return (VStr (PyStr.repeat s n))
      | VList l => Return (VList (repeat_list l (Z.to_nat n)))
      | _ => Raise (BuiltinError PyTypeError)
      end
  | _, _ => Raise (BuiltinError PyTypeError)
  end.

(** [a / b] for numbers: ZeroDivisionError when [b] is zero. *)
Definition py_truediv (a b : value) : outcome value :=
  match as_number a, as_number b with
  | Some x, Some y =>
      arith (fun x y =>
               if y =? 0 then Raise (BuiltinError PyZeroDivisionError)
               else (q <- int_truediv x y ;; Return (VFloat q)))
            (fun x y =>
               if float_is_zero y then Raise (BuiltinError PyZeroDivisionError)
               else Return (VFloat (PrimFloat.div x y))) x y
  | _, _ => Raise (BuiltinError PyTypeError)
  end.

(** [a ** b] for numbers: an integer for integers with [b >= 0]. *)
Definition py_pow (a b : value) : outcome value :=
  match as_number a, as_number b with
  | Some (NInt x), Some (NInt y) =>
      if 0 <=? y then Return (VInt (x ^ y)) else float_pow a b
  | Some _, Some _ => float_pow a b
  | _, _ => Raise (BuiltinError PyTypeError)
  end.

End Operators.


(** [int(s)] and [int(s, 2)] for a text. *)
Definition py_int (base : Z) (s : string) : outcome Z :=
  match PyStr.to_int base s with
  | Some z => Return z
  | None => Raise (BuiltinError PyValueError)
  end.

(** [type(v).__name__]. *)
Definition type_name (v : value) : string :=
  match v with
  | VInt _ => "int"
  | VFloat _ => "float"
  | VStr _ => "str"
  | VBool _ => "bool"
  | VNone => "NoneType"
  | VList _ => "list"
  | VDict _ => "dict"
  | VDatetime _ => "datetime"
  end.

(** ** A [dict] with text keys

    The pairs are kept in the order of insertion, which is the order
    [items()] yields them; [d[k] = v] on a key that is present keeps its
    place. *)
Module Dict.
Section Dict.
Context {V : Type}.

Definition t : Type := list (string * V).

Definition empty : t := [].

Fixpoint get (d : t) (k : string) : option V :=
  match d with
  | [] => None
  | (k', v) :: d' => if String.eqb k k' then Some v else get d' k
  end.

(** [k in d]. *)
Definition contains (d : t) (k : string) : bool :=
  match get d k with
  | Some _ => true
  | None => false
  end.

(** [d[k] = v]. *)
Fixpoint set (d : t) (k : string) (v : V) : t :=
  match d with
  | [] => [(k, v)]
  | (k', v') :: d' =>
      if String.eqb k k' then (k, v) :: d' else (k', v') :: set d' k v
  end.



End Dict.
Arguments t V : clear implicits.
End Dict.

(** ** ast_nodes/ritual_nodes.py: [RealmTypeInference] *)
Module RealmTypeInference.
Section RealmTypeInference.
Context {B : Builtins}.
Local Open Scope py_scope.

Definition infer_mortal_type (text : string) : outcome string :=
  try_except
    (_ <- py_int 10 text ;;
     Return "int")
    is_ValueError
    (fun _ =>
       if Nat.eqb (String.length text) 1 then Return "char"
       else Return "string").

Definition infer_spirit_type (text : string) : outcome string :=
  try_except
    (if PyStr.contains_char "." text then
       _ <- py_float (VStr text) ;;
       Return "double"
     else
       val <- py_int 10 text ;;
       if Z.abs val >? 2 ^ 31 then Return "long"
       else Return "int")
    is_ValueError
    (fun _ => Return "string").

Definition infer_shadow_type (text : string) : outcome string :=
  if PyStr.in_list (PyStr.lower text)
       ["true"; "false"; "yes"; "no"; "light"; "dark"]
  then Return "bool"
  else if PyStr.all_binary text then Return "binary"
  else Return "bool".

End RealmTypeInference.

(** Get possible types for a realm. *)
Definition get_realm_types (realm : RealmType) : list string :=
  match realm with
  | MORTAL => ["int"; "char"]
  | SPIRIT => ["double"; "long"; "string"]
  | SHADOW => ["bool"; "binary"]
  | VOID => ["null"; "undefined"]
  | ASTRAL => ["array"; "list"]
  | DIVINE => ["object"; "struct"]
  | TEMPORAL => ["date"; "time"; "datetime"]
  end.

End RealmTypeInference.

(** ** interpreter/variable_storage.py: [SpiritRealm] *)
Module SpiritRealm.

Record t : Type := mk {
  spirits : Dict.t value;            (* spirit_name -> value *)
  spirit_realms : Dict.t RealmType;  (* spirit_name -> realm *)
  spirit_types : Dict.t string       (* spirit_name -> inferred_type *)
}.

(** [__init__]. *)
Definition init : t :=
  {| spirits := Dict.empty;
     spirit_realms := Dict.empty;
     spirit_types := Dict.empty |}.



Section Methods.
Context {B : Builtins}.
Local Open Scope py_scope.

Definition _convert_mortal (text : string) : outcome value :=
  (* Try int first *)
  try_except
    (z <- py_int 10 text ;;
     Return (VInt z))
    is_ValueError
    (fun _ =>
       (* Single character -> char *)
       if Nat.eqb (String.length text) 1 then Return (VStr text)
       (* Fallback to string *)
       else Return (VStr text)).

Definition _convert_spirit (text : string) : outcome value :=
  (* Try float (double) *)
  tried <- try_except
             (if PyStr.contains_char "." text then
                f <- py_float (VStr text) ;;
                Return (Some (VFloat f))
              else Return None)
             is_ValueError
             (fun _ => Return None) ;;
  match tried with
  | Some v => Return v
  | None =>
      (* Try int/long *)
      try_except
        (num <- py_int 10 text ;;
         if Z.abs num >? 2 ^ 31 then Return (VInt num)
         else Return (VInt num))
        is_ValueError
        (* String *)
        (fun _ => Return (VStr text))
  end.

Definition _convert_shadow (text : string) : outcome value :=
  let lower_val := PyStr.lower text in
  (* Boolean conversion *)
  if PyStr.in_list lower_val ["true"; "yes"; "light"; "1"; "on"]
  then Return (VBool true)
  else if PyStr.in_list lower_val ["false"; "no"; "dark"; "0"; "off"]
  then Return (VBool false)
  (* Binary conversion *)
  else if PyStr.all_binary text then
    z <- py_int 2 text ;;
    Return (VInt z)
  (* Fallback to boolean interpretation *)
  else Return (VBool (truthy (VStr text))).

(** The body of the [try] of [_convert_by_realm]: the rule of the realm. *)
Definition realm_rule (raw_value : string) (realm : RealmType) : outcome value :=
  match realm with
  | MORTAL => _convert_mortal raw_value
  | SPIRIT => _convert_spirit raw_value
  | SHADOW => _convert_shadow raw_value
  | VOID =>
      if PyStr.in_list (PyStr.lower raw_value) ["null"; "none"; "void"; ""]
      then Return VNone
      else Return (VStr raw_value)
  | ASTRAL =>
      if (PyStr.startswith_char "[" raw_value
          && PyStr.endswith_char "]" raw_value)%bool
      then py_eval raw_value
      else if PyStr.contains_char "," raw_value
      then Return (VList (map VStr (PyStr.split_on "," raw_value)))
      else Return (VList [VStr raw_value])
  | DIVINE =>
      if (PyStr.startswith_char "{" raw_value
          && PyStr.endswith_char "}" raw_value)%bool
      then py_eval raw_value
      else Return (VDict [(VStr "value", VStr raw_value)])
  | TEMPORAL =>
      try_except
        (d <- fromisoformat raw_value ;;
         Return (VDatetime d))
        (fun _ => true)
        (fun _ => Return (VStr raw_value))
  end.

Definition _convert_by_realm (raw_value : string) (realm : RealmType)
  : outcome value :=
  try_except (realm_rule raw_value realm)
    is_Exception
    (* Fallback to string if conversion fails *)
    (fun _ => Return (VStr raw_value)).

Definition _infer_type (raw_value : string) (realm : RealmType)
  : outcome string :=
  match realm with
  | MORTAL => RealmTypeInference.infer_mortal_type raw_value
  | SPIRIT => RealmTypeInference.infer_spirit_type raw_value
  | SHADOW => RealmTypeInference.infer_shadow_type raw_value
  | _ => Return (RealmType_value realm)
  end.

(** [summon_spirit]: an exception leaves [self] with the entries
    written before it. *)
Definition summon_spirit (self : t) (name raw_value : string)
                         (realm : RealmType) : outcome unit * t :=
  (* Convert raw input to appropriate type based on realm *)
  match _convert_by_realm raw_value realm with
  | Raise e => (Raise e, self)
  | Return typed_value =>
      let self1 :=
        {| spirits := Dict.set (spirits self) name typed_value;
           spirit_realms := Dict.set (spirit_realms self) name realm;
           spirit_types := spirit_types self |} in
      match _infer_type raw_value realm with
      | Raise e => (Raise e, self1)
      | Return inferred =>
          (Return tt,
           {| spirits := spirits self1;
              spirit_realms := spirit_realms self1;
              spirit_types := Dict.set (spirit_types self1) name inferred |})
      end
  end.

Definition get_spirit_essence (self : t) (name : string) : outcome value :=
  match Dict.get (spirits self) name with
  | None => Raise (SpiritNotSummonedUseInvoke name)
  | Some v => Return v
  end.

Definition get_spirit_realm (self : t) (name : string) : outcome RealmType :=
  match Dict.get (spirit_realms self) name with
  | None => Raise (SpiritNotSummoned name)
  | Some r => Return r
  end.

Definition get_spirit_type (self : t) (name : string) : string :=
  match Dict.get (spirit_types self) name with
  | Some ty => ty
  | None => "unknown"
  end.

Definition has_spirit (self : t) (name : string) : bool :=
  Dict.contains (spirits self) name.

Definition bind_manifestation (self : t) (name : string) (v : value)
                              (realm : RealmType) : t :=
  {| spirits := Dict.set (spirits self) name v;
     spirit_realms := Dict.set (spirit_realms self) name realm;
     spirit_types := Dict.set (spirit_types self) name (type_name v) |}.



End Methods.
End SpiritRealm.

(** ** interpreter/execution_engine.py: [MysticalExecutor] *)
Module MysticalExecutor.

(** An entry of [operation_history], before it is laid out as text. *)
Inductive history_entry : Type :=
| Channeled (variable : string) (v : value)
| Woven (variable : string) (v : value)
| Manifested (operation : OperationType) (left right result : value).

(** The two slots hold [None] until a value is channeled or woven. *)
Record t : Type := mk {
  channeled_essence : value;   (* Current channeled value *)
  woven_force : value;         (* Current woven value *)
  operation_history : list history_entry
}.

(** [__init__]. *)
Definition init : t :=
  {| channeled_essence := VNone;
     woven_force := VNone;
     operation_history := [] |}.

Definition channel_essence (self : t) (variable : string) (v : value) : t :=
  {| channeled_essence := v;
     woven_force := woven_force self;
     operation_history := operation_history self ++ [Channeled variable v] |}.

Definition weave_force (self : t) (variable : string) (v : value) : t :=
  {| channeled_essence := channeled_essence self;
     woven_force := v;
     operation_history := operation_history self ++ [Woven variable v] |}.

Section Methods.
Context {B : Builtins}.
Local Open Scope py_scope.

(** Perform mystical union (addition). *)
Definition _perform_union (left right : value) : outcome value :=
  if (is_str left || is_str right)%bool then
    Return (VStr (py_str left ++ py_str right))
  else if (is_int_or_float left && is_int_or_float right)%bool then
    py_add left right
  else if (is_bool left || is_bool right)%bool then
    Return (py_or left right)  (* Logical OR for booleans *)
  else if (is_list left && is_list right)%bool then
    py_add left right
  else
    (* Try numeric addition, fallback to concatenation *)
    try_except (py_add left right)
      (fun _ => true)
      (fun _ => Return (VStr (py_str left ++ py_str right))).

(** [left.replace(right, "")]. *)
Definition replace_with_empty (left right : value) : outcome value :=
  match left, right with
  | VStr l, VStr r => Return (VStr (PyStr.remove_all l r))
  | _, _ => Raise (BuiltinError PyTypeError)
  end.

(** Perform mystical difference (subtraction). *)
Definition _perform_difference (left right : value) : outcome value :=
  if (is_int_or_float left && is_int_or_float right)%bool then
    py_sub left right
  else if (is_bool left && is_bool right)%bool then
    Return (py_and left (py_not right))  (* Logical difference *)
  else if (is_str left && is_str right)%bool then
    replace_with_empty left right  (* String difference *)
  else
    (* Try numeric subtraction *)
    l <- py_float left ;;
    r <- py_float right ;;
    Return (VFloat (PrimFloat.sub l r)).

(** Perform mystical fusion (multiplication). *)
Definition _perform_fusion (left right : value) : outcome value :=
  if (is_int_or_float left && is_int_or_float right)%bool then
    py_mul left right
  else if (is_str left && is_int right)%bool then
    py_mul left right  (* String repetition *)
  else if (is_bool left && is_bool right)%bool then
    Return (py_and left right)  (* Logical AND *)
  else if (is_list left && is_int right)%bool then
    py_mul left right  (* List repetition *)
  else
    (* Try numeric multiplication *)
    l <- py_float left ;;
    r <- py_float right ;;
    Return (VFloat (PrimFloat.mul l r)).

(** Perform mystical division. *)
Definition _perform_division (left right : value) : outcome value :=
  if (is_int_or_float left && is_int_or_float right)%bool then
    if eq_zero right then Raise CannotDivideByZero
    else py_truediv left right
  else
    (* Try numeric division *)
    right_num <- py_float right ;;
    if float_is_zero right_num then Raise CannotDivideByZero
    else
      l <- py_float left ;;
      py_truediv (VFloat l) (VFloat right_num).

(** Perform mystical power (exponentiation). *)
Definition _perform_power (left right : value) : outcome value :=
  if (is_int_or_float left && is_int_or_float right)%bool then
    py_pow left right
  else
    (* Try numeric exponentiation *)
    l <- py_float left ;;
    r <- py_float right ;;
    py_pow (VFloat l) (VFloat r).

(** Perform essence extraction (identity/no-op, returns left). *)
Definition _perform_essence (left : value) : outcome value :=
  Return left.

(** The dispatch inside the [try] of [manifest_union]. *)
Definition perform (operation : OperationType) (left right : value)
  : outcome value :=
  match operation with
  | UNION => _perform_union left right
  | DIFFERENCE => _perform_difference left right
  | FUSION => _perform_fusion left right
  | DIVISION => _perform_division left right
  | POWER => _perform_power left right
  | ESSENCE => _perform_essence left  (* Only need left operand *)
  | _ => Raise (UnknownMysticalOperation operation)
  end.

(** The two guards of [manifest_union]: the exception of the one that
    fails. *)
Definition missing_operand (self : t) (operation : OperationType)
  : option exn :=
  match operation with
  | ESSENCE =>
      (* For essence operations, we only need channeled essence *)
      if is_None (channeled_essence self)
      then Some CannotManifestEssence
      else None
  | _ =>
      (* Other operations need both operands *)
      if (is_None (channeled_essence self) || is_None (woven_force self))%bool
      then Some CannotManifestWithoutBoth
      else None
  end.

(** Manifest the result of a mystical operation. *)
Definition manifest_union (self : t) (operation : OperationType)
                          (operands : list string) : outcome value * t :=
  match missing_operand self operation with
  | Some e => (Raise e, self)
  | None =>
      let left := channeled_essence self in
      let right := woven_force self in
      match try_except (perform operation left right)
              is_Exception
              (fun e => Raise (MysticalOperationFailed e)) with
      | Return result =>
          (Return result,
           (* Clear the channeled values for next operation *)
           {| channeled_essence := VNone;
              woven_force := VNone;
              operation_history :=
                operation_history self
                ++ [Manifested operation left right result] |})
      | Raise e => (Raise e, self)
      end
  end.

End Methods.
End MysticalExecutor.

(** ** interpreter/io_handler.py: [MysticalIO]

    What the handler prints is kept as a list of records, one per
    announcement, not as the text it is laid out in. *)
Module MysticalIO.

(** The prompt of an invocation. *)
Inductive prompt : Type :=
| MysticalPrompt (spirit_name : string) (realm : RealmType)
| TechnicalPrompt (spirit_name : string) (realm : RealmType).

Inductive output : Type :=
| RitualBeginning
| RitualCompletion
| RitualFailure (error : exn)
| ExecutionError (error : exn)      (* "Execution error: {e}" *)
| Prompted (p : prompt)             (* the prompt [input] writes *)
| SpiritSummoned (spirit_name : string) (realm : RealmType)
| EssenceChanneled (variable : string)
| ForceWoven (variable : string)
| Manifestation (operation : OperationType) (result_var : string)
                (result : value)
| Spoken (target_desc : string) (variable : string) (v : value)
| SpokenPlainly (target : string) (variable : string) (v : value).

Definition announce_ritual_beginning (mystical_mode : bool) : list output :=
  if mystical_mode then [RitualBeginning] else [].

Definition announce_ritual_completion (mystical_mode : bool) : list output :=
  if mystical_mode then [RitualCompletion] else [].

Definition announce_ritual_failure (mystical_mode : bool) (error : exn)
  : list output :=
  if mystical_mode then [RitualFailure error] else [].

Definition get_invocation_prompt (mystical_mode : bool) (spirit_name : string)
                                 (realm : RealmType) : prompt :=
  if mystical_mode then MysticalPrompt spirit_name realm
  else TechnicalPrompt spirit_name realm.

Definition announce_spirit_summoned (mystical_mode : bool)
                                    (spirit_name : string) (realm : RealmType)
  : list output :=
  if mystical_mode then [SpiritSummoned spirit_name realm] else [].

Definition announce_essence_channeled (mystical_mode : bool)
                                      (variable : string) : list output :=
  if mystical_mode then [EssenceChanneled variable] else [].

Definition announce_force_woven (mystical_mode : bool) (variable : string)
  : list output :=
  if mystical_mode then [ForceWoven variable] else [].

Definition announce_manifestation (mystical_mode : bool)
                                  (operation : OperationType)
                                  (result_var : string) (result : value)
  : list output :=
  if mystical_mode then [Manifestation operation result_var result] else [].

Definition _get_target_description (target : string) : string :=
  if String.eqb target "the void"
  then "the infinite void that echoes through eternity"
  else if String.eqb target "the mortal eyes"
  then "those who walk the earthly plane"
  else if String.eqb target "the sacred scroll"
  then "the ancient parchments of knowledge"
  else target.

Definition speak_to_realm (mystical_mode : bool) (variable : string)
                          (v : value) (target : string) : list output :=
  if mystical_mode
  then [Spoken (_get_target_description target) variable v]
  else [SpokenPlainly target variable v].

End MysticalIO.

(** ** interpreter/spell_interpreter.py: [SpellInterpreter] *)
Module SpellInterpreter.

(** The interpreter with the two streams it reads and writes:
    [stdin] holds the lines [input] has still to return, [stdout] what
    has been printed. *)
Record t : Type := mk {
  spirit_realm : SpiritRealm.t;
  executor : MysticalExecutor.t;
  mystical_mode : bool;
  stdin : list string;
  stdout : list MysticalIO.output
}.

(** [__init__]. *)
Definition init (mystical_mode : bool) (stdin : list string) : t :=
  {| spirit_realm := SpiritRealm.init;
     executor := MysticalExecutor.init;
     mystical_mode := mystical_mode;
     stdin := stdin;
     stdout := [] |}.

Definition with_spirit_realm (self : t) (r : SpiritRealm.t) : t :=
  {| spirit_realm := r; executor := executor self;
     mystical_mode := mystical_mode self;
     stdin := stdin self; stdout := stdout self |}.

Definition with_executor (self : t) (e : MysticalExecutor.t) : t :=
  {| spirit_realm := spirit_realm self; executor := e;
     mystical_mode := mystical_mode self;
     stdin := stdin self; stdout := stdout self |}.

Definition print (self : t) (out : list MysticalIO.output) : t :=
  {| spirit_realm := spirit_realm self; executor := executor self;
     mystical_mode := mystical_mode self;
     stdin := stdin self; stdout := stdout self ++ out |}.

(** [input(prompt)]: the prompt is written, then a line is read;
    EOFError when there is none. *)
Definition input (self : t) (p : MysticalIO.prompt) : outcome string * t :=
  let self := print self [MysticalIO.Prompted p] in
  match stdin self with
  | [] => (Raise (BuiltinError PyEOFError), self)
  | line :: rest =>
      (Return line,
       {| spirit_realm := spirit_realm self; executor := executor self;
          mystical_mode := mystical_mode self;
          stdin := rest; stdout := stdout self |})
  end.

Section Methods.
Context {B : Builtins}.

(** Infer the realm type for operation results. *)
Fixpoint collect_realms (self : t) (operands : list string)
  : outcome (list RealmType) :=
  match operands with
  | [] => Return []
  | operand :: rest =>
      if SpiritRealm.has_spirit (spirit_realm self) operand then
        py_bind (SpiritRealm.get_spirit_realm (spirit_realm self) operand)
          (fun r =>
             py_bind (collect_realms self rest)
               (fun realms => Return (r :: realms)))
      else collect_realms self rest
  end.

Definition realm_in (r : RealmType) (realms : list RealmType) : bool :=
  existsb (RealmType_eqb r) realms.

Definition _infer_result_realm (self : t) (operands : list string)
  : outcome RealmType :=
  py_bind (collect_realms self operands)
    (fun realms =>
       match realms with
       | [] => Return MORTAL
       | _ =>
           (* Promotion rules: spirit > mortal, shadow for booleans *)
           if realm_in SPIRIT realms then Return SPIRIT
           else if realm_in SHADOW realms then Return SHADOW
           else Return MORTAL
       end).

(** Execute INVOKE - summon spirits (get input values). *)
Fixpoint _execute_invocation (self : t) (variables : list string)
                             (realm : RealmType) : outcome unit * t :=
  match variables with
  | [] => (Return tt, self)
  | variable :: rest =>
      let p :=
        if mystical_mode self
        then MysticalIO.get_invocation_prompt (mystical_mode self) variable realm
        else MysticalIO.TechnicalPrompt variable realm in
      match input self p with
      | (Raise e, self) => (Raise e, self)
      | (Return raw_value, self) =>
          (* Store the spirit with realm-based type inference *)
          match SpiritRealm.summon_spirit (spirit_realm self)
                  variable raw_value realm with
          | (Raise e, r) => (Raise e, with_spirit_realm self r)
          | (Return _, r) =>
              let self := with_spirit_realm self r in
              let self :=
                if mystical_mode self
                then print self (MysticalIO.announce_spirit_summoned
                                   (mystical_mode self) variable realm)
                else self in
              _execute_invocation self rest realm
          end
      end
  end.

(** Execute CHANNEL - prepare variable for use. *)
Definition _execute_channeling (self : t) (variable : string)
  : outcome unit * t :=
  match SpiritRealm.get_spirit_essence (spirit_realm self) variable with
  | Raise e => (Raise e, self)
  | Return v =>
      let self :=
        with_executor self
          (MysticalExecutor.channel_essence (executor self) variable v) in
      (Return tt,
       if mystical_mode self
       then print self (MysticalIO.announce_essence_channeled
                          (mystical_mode self) variable)
       else self)
  end.

(** Execute WEAVE - prepare second variable for operation. *)
Definition _execute_weaving (self : t) (variable : string)
  : outcome unit * t :=
  match SpiritRealm.get_spirit_essence (spirit_realm self) variable with
  | Raise e => (Raise e, self)
  | Return v =>
      let self :=
        with_executor self
          (MysticalExecutor.weave_force (executor self) variable v) in
      (Return tt,
       if mystical_mode self
       then print self (MysticalIO.announce_force_woven
                          (mystical_mode self) variable)
       else self)
  end.

(** Execute MANIFEST - perform the mystical operation. *)
Definition _execute_manifestation (self : t) (operation : OperationType)
                                  (operands : list string)
                                  (result_variable : string)
  : outcome unit * t :=
  match MysticalExecutor.manifest_union (executor self) operation operands with
  | (Raise e, ex) => (Raise e, with_executor self ex)
  | (Return result, ex) =>
      let self := with_executor self ex in
      (* Determine result realm based on operand realms *)
      match _infer_result_realm self operands with
      | Raise e => (Raise e, self)
      | Return result_realm =>
          (* Store the result *)
          let self :=
            with_spirit_realm self
              (SpiritRealm.bind_manifestation (spirit_realm self)
                 result_variable result result_realm) in
          (Return tt,
           if mystical_mode self
           then print self (MysticalIO.announce_manifestation
                              (mystical_mode self) operation
                              result_variable result)
           else self)
      end
  end.

(** Execute SPEAK FORTH - output the result. *)
Definition _execute_speaking (self : t) (variable target : string)
  : outcome unit * t :=
  match SpiritRealm.get_spirit_essence (spirit_realm self) variable with
  | Raise e => (Raise e, self)
  | Return v =>
      (Return tt,
       if mystical_mode self
       then print self (MysticalIO.speak_to_realm
                          (mystical_mode self) variable v target)
       else print self [MysticalIO.SpokenPlainly
                          (PyStr.remove_all target "the ") variable v])
  end.

(** Execute a single statement. *)
Definition execute_statement (self : t) (statement : SpellNode)
  : outcome unit * t :=
  match statement with
  | InvokeNode variables realm => _execute_invocation self variables realm
  | ChannelNode variable => _execute_channeling self variable
  | WeaveNode variable => _execute_weaving self variable
  | ManifestNode operation operands result_variable =>
      _execute_manifestation self operation operands result_variable
  | SpeakNode variable target => _execute_speaking self variable target
  | _ => (Raise (UnknownStatementType (type_of_node statement)), self)
  end.

(** The [for] loop of [execute_spell_program]: it ends at the first
    statement that raises. *)
Fixpoint execute_statements (self : t) (statements : list SpellNode)
  : outcome unit * t :=
  match statements with
  | [] => (Return tt, self)
  | statement :: rest =>
      match execute_statement self statement with
      | (Raise e, self) => (Raise e, self)
      | (Return _, self) => execute_statements self rest
      end
  end.

(** The interpreter once the beginning of the ritual is announced. *)
Definition ritual_begun (self : t) : t :=
  if mystical_mode self
  then print self (MysticalIO.announce_ritual_beginning (mystical_mode self))
  else self.

(** Execute a complete spell program, given by [program.statements]. *)
Definition execute_spell_program (self : t) (statements : list SpellNode)
  : outcome unit * t :=
  let self := ritual_begun self in
  match execute_statements self statements with
  | (Return _, self) =>
      (Return tt,
       if mystical_mode self
       then print self (MysticalIO.announce_ritual_completion
                          (mystical_mode self))
       else self)
  | (Raise e, self) =>
      if is_Exception e then
        (Raise e,
         if mystical_mode self
         then print self (MysticalIO.announce_ritual_failure
                            (mystical_mode self) e)
         else print self [MysticalIO.ExecutionError e])
      else (Raise e, self)
  end.


End Methods.
End SpellInterpreter.

(** ** parser/ast_transformer.py and parser/spell_parser.py

    The methods of [SpellTransformer] that build the statements of the
    accumulator protocol, and the type inference of [SpellParser]. *)
Module SpellTransformer.

(** A child of a parse tree as the methods tell them apart: a token
    (a [str] that has a [type]), a plain [str], the list of names a
    variable list was turned into, a realm, an operation, a node, or
    anything else. *)
Inductive child : Type :=
| Token (type : string) (text : string)
| Str (text : string)
| Names (names : list string)
| ARealm (realm : RealmType)
| AnOperation (operation : OperationType)
| ANode (node : SpellNode)
| AnythingElse.

(** The transformer: the operands tracked for the next manifestation. *)
Record t : Type := mk {
  current_operands : list string
}.

(** [__init__]. *)
Definition init : t := {| current_operands := [] |}.

(** The variable a child gives to [channeling] and [weaving]: the text
    of an identifier token, or a [str] that is none of the words of the
    statement. *)
Definition variable_of (words : list string) (c : child) : option string :=
  match c with
  | Token type text =>
      if String.eqb type "IDENTIFIER" then Some text
      else if negb (PyStr.in_list text words) then Some text
      else None
  | Str text => if negb (PyStr.in_list text words) then Some text else None
  | _ => None
  end.

(** The first child, in the order given, that gives a variable. *)
Fixpoint first_variable (words : list string) (children : list child)
  : option string :=
  match children with
  | [] => None
  | c :: rest =>
      match variable_of words c with
      | Some v => Some v
      | None => first_variable words rest
      end
  end.

(** CHANNEL the essence OF variable; [None] when the method raises
    "No variable found in CHANNEL statement". *)
Definition channeling (self : t) (children : list child)
  : option (SpellNode * t) :=
  (* Find the variable (last identifier) *)
  match first_variable ["CHANNEL"; "the"; "essence"; "OF"] (rev children) with
  | Some variable =>
      Some (ChannelNode variable,
            {| current_operands := current_operands self ++ [variable] |})
  | None => None
  end.

(** WEAVE WITH the force OF variable; [None] when the method raises
    "No variable found in WEAVE statement". *)
Definition weaving (self : t) (children : list child)
  : option (SpellNode * t) :=
  match first_variable ["WEAVE"; "WITH"; "the"; "force"; "OF"]
          (rev children) with
  | Some variable =>
      Some (WeaveNode variable,
            {| current_operands := current_operands self ++ [variable] |})
  | None => None
  end.

(** The loop of [manifestation] over the children: the operation and
    the result variable found last. *)
Fixpoint find_manifestation (operation : option OperationType)
                            (result_variable : option string)
                            (children : list child)
  : option OperationType * option string :=
  match children with
  | [] => (operation, result_variable)
  | c :: rest =>
      match c with
      | AnOperation o => find_manifestation (Some o) result_variable rest
      | Token type text =>
          if String.eqb type "IDENTIFIER"
          then find_manifestation operation (Some text) rest
          else if negb (PyStr.in_list text ["MANIFEST"; "AS"])
          then
            (* Could be variable name as string *)
            if negb (existsb (fun word => PyStr.contains word (PyStr.lower text))
                       ["their"; "union"; "difference"; "fusion";
                        "division"; "power"; "essence"])
            then find_manifestation operation (Some text) rest
            else find_manifestation operation result_variable rest
          else find_manifestation operation result_variable rest
      | Str text =>
          if negb (PyStr.in_list text ["MANIFEST"; "AS"])
          then
            if negb (existsb (fun word => PyStr.contains word (PyStr.lower text))
                       ["their"; "union"; "difference"; "fusion";
                        "division"; "power"; "essence"])
            then find_manifestation operation (Some text) rest
            else find_manifestation operation result_variable rest
          else find_manifestation operation result_variable rest
      | _ => find_manifestation operation result_variable rest
      end
  end.

(** What [manifestation] passes to [ManifestNode]: the operation and
    the result variable are [None] when no child gives them. *)
Record manifestation_fields : Type := mkFields {
  operation : option OperationType;
  operands : list string;
  result_variable : option string
}.

(** MANIFEST operation AS result_variable. *)
Definition manifestation (self : t) (children : list child)
  : manifestation_fields * t :=
  let '(operation, result_variable) :=
    find_manifestation None None children in
  (* Use accumulated operands from CHANNEL/WEAVE *)
  let operands := current_operands self in
  (mkFields operation operands result_variable,
   (* Reset for next manifestation *)
   {| current_operands := [] |}).

(** The node of the fields, when the operation and the result variable
    were found. *)
Definition node_of (f : manifestation_fields) : option SpellNode :=
  match operation f, result_variable f with
  | Some o, Some r => Some (ManifestNode o (operands f) r)
  | _, _ => None
  end.

(** One call of [channeling] or of [weaving]. *)
Inductive staging : Type :=
| Channeling (children : list child)
| Weaving (children : list child).

(** The calls made one after the other; the variables they found. *)
Fixpoint stage_all (self : t) (calls : list staging)
  : option (list string * t) :=
  match calls with
  | [] => Some ([], self)
  | call :: rest =>
      match (match call with
             | Channeling children => channeling self children
             | Weaving children => weaving self children
             end) with
      | None => None
      | Some (node, self1) =>
          match stage_all self1 rest with
          | None => None
          | Some (variables, self2) =>
              Some (match node with
                    | ChannelNode v | WeaveNode v => v :: variables
                    | _ => variables
                    end, self2)
          end
      end
  end.

End SpellTransformer.

Module SpellParser.

(** An entry of the type information: the realm, the types possible in
    it, and the inferred type, which is not set. *)
Record type_entry : Type := mkEntry {
  entry_realm : RealmType;
  possible_types : list string;
  inferred_type : option string
}.

(** The inner loop of [_infer_types]: the variables of one invocation. *)
Fixpoint assign_realm (type_info : Dict.t type_entry)
                      (variables : list string) (realm : RealmType)
  : Dict.t type_entry :=
  match variables with
  | [] => type_info
  | var :: rest =>
      assign_realm
        (Dict.set type_info var
           (mkEntry realm (RealmTypeInference.get_realm_types realm) None))
        rest realm
  end.

(** The outer loop of [_infer_types]: the statements of the program. *)
Fixpoint infer_from (type_info : Dict.t type_entry)
                    (statements : list SpellNode) : Dict.t type_entry :=
  match statements with
  | [] => type_info
  | InvokeNode variables realm :: rest =>
      (* Assign realm-based types to variables *)
      infer_from (assign_realm type_info variables realm) rest
  | _ :: rest => infer_from type_info rest
  end.

(** Infer types for all variables based on realm context. *)
Definition _infer_types (statements : list SpellNode) : Dict.t type_entry :=
  infer_from Dict.empty statements.

End SpellParser.

(** ** An instance of the builtins to run the model with

    It answers as CPython does on the texts and numbers listed and
    fails on every other one; the text of an object that is neither an
    empty list nor an empty dict is left as an ellipsis. *)
Module Sample.

Definition the_float_of_str (s : string) : option float :=
  if String.eqb s "0" then Some 0%float
  else if String.eqb s "0.0" then Some 0%float
  else if String.eqb s "-0.0" then Some (-0)%float
  else if String.eqb s "1.5" then Some 1.5%float
  else if String.eqb s "12.5" then Some 12.5%float
  else None.

(** [x / y] for integers that are binary64 numbers themselves: the
    quotient of the two numbers, rounded once. *)
Definition the_int_truediv (x y : Z) : outcome float :=
  if ((Z.abs x <? 2 ^ 53) && (Z.abs y <? 2 ^ 53))%bool then
    py_bind (float_of_Z x)
      (fun fx => py_bind (float_of_Z y)
                   (fun fy => Return (PrimFloat.div fx fy)))
  else Raise (BuiltinError PyOtherException).

Definition the_float_pow (a b : value) : outcome value :=
  Raise (BuiltinError PyOtherException).

Definition the_fromisoformat (s : string) : outcome datetime :=
  if String.eqb s "2024-01-02"
  then Return (mkDatetime 2024 1 2 0 0 0 0 None)
  else Raise (BuiltinError PyValueError).

Definition the_eval (s : string) : outcome value :=
  if String.eqb s "[1, 2]" then Return (VList [VInt 1; VInt 2])
  else if String.eqb s "[]" then Return (VList [])
  else if String.eqb s "{'a': 1}" then Return (VDict [(VStr "a", VInt 1)])
  else if String.eqb s "[exit()]" then Raise (BuiltinError PySystemExit)
  else if String.eqb s "{exit()}" then Raise (BuiltinError PySystemExit)
  else if String.eqb s "[oops]" then Raise (BuiltinError PyNameError)
  else Raise (BuiltinError PySyntaxError).

Definition the_str_other (v : value) : string :=
  match v with
  | VList [] => "[]"
  | VDict [] => "{}"
  | _ => "..."
  end.

Definition builtins : Builtins :=
  {| float_of_str := the_float_of_str;
     int_truediv := the_int_truediv;
     float_pow := the_float_pow;
     fromisoformat := the_fromisoformat;
     py_eval := the_eval;
     str_other := the_str_other |}.

End Sample.

(** ** Programs to run the model on *)
Module Scenario.
Import SpellInterpreter.
#[local] Existing Instance Sample.builtins.





(** A spirit [x] of the spirit realm and a spirit [y] of the mortal
    realm, channeled and woven. *)
Definition spirit_and_mortal : SpellInterpreter.t :=
  snd (execute_statements (init false ["1.5"; "2"])
         [InvokeNode ["x"] SPIRIT; InvokeNode ["y"] MORTAL;
          ChannelNode "x"; WeaveNode "y"]).

Definition manifest_fusion : SpellNode := ManifestNode FUSION ["x"; "y"] "z".

End Scenario.

(** ** The vocabulary of the specification *)

(** The kinds of error of the specification's taxonomy. *)
Inductive error_kind : Type :=
| UnboundVariable | MissingOperand | DivisionByZero | CoercionError
| UnknownStatement | OtherError.

(** The kind of an exception of the runtime, by its message. *)
Definition kind_of (e : exn) : error_kind :=
  match e with
  | SpiritNotSummonedUseInvoke _ | SpiritNotSummoned _ => UnboundVariable
  | CannotManifestEssence | CannotManifestWithoutBoth => MissingOperand
  | MysticalOperationFailed CannotDivideByZero => DivisionByZero
  | MysticalOperationFailed (BuiltinError PyValueError)
  | MysticalOperationFailed (BuiltinError PyTypeError) => CoercionError
  | UnknownStatementType _ => UnknownStatement
  | _ => OtherError
  end.

(** A slot is staged when it holds an object other than [None]. *)
Definition staged (slot : value) : bool := negb (is_None slot).



(** A text that [_convert_by_realm] hands to [eval]: a bracketed text
    of the astral realm, a braced text of the divine realm. *)
Definition evaluated (realm : RealmType) (raw_value : string) : bool :=
  match realm with
  | ASTRAL =>
      (PyStr.startswith_char "[" raw_value
       && PyStr.endswith_char "]" raw_value)%bool
  | DIVINE =>
      (PyStr.startswith_char "{" raw_value
       && PyStr.endswith_char "}" raw_value)%bool
  | _ => false
  end.

(** The three dictionaries of a realm hold the same names. *)
Definition consistent (r : SpiritRealm.t) : Prop :=
  forall name,
    Dict.contains (SpiritRealm.spirit_realms r) name
    = Dict.contains (SpiritRealm.spirits r) name
    /\ Dict.contains (SpiritRealm.spirit_types r) name
       = Dict.contains (SpiritRealm.spirits r) name.

(** The binding of a name: its value, its realm and its type label. *)
Definition binding (r : SpiritRealm.t) (name : string)
  : option value * option RealmType * option string :=
  (Dict.get (SpiritRealm.spirits r) name,
   Dict.get (SpiritRealm.spirit_realms r) name,
   Dict.get (SpiritRealm.spirit_types r) name).

(** The names a statement summons. *)
Definition summons (statement : SpellNode) (name : string) : bool :=
  match statement with
  | InvokeNode variables _ => existsb (String.eqb name) variables
  | _ => false
  end.

(** Some bound operand of the list has the realm [r]. *)
Definition some_operand_from (self : SpiritRealm.t) (operands : list string)
                             (r : RealmType) : Prop :=
  exists name,
    In name operands
    /\ SpiritRealm.has_spirit self name = true
    /\ Dict.get (SpiritRealm.spirit_realms self) name = Some r.


(** What a step from the realm [r] to the realm [r'] keeps: every name
    that is bound, the binding of every name outside [changed], and the
    agreement of the three dictionaries. *)
Definition keeps (r r' : SpiritRealm.t) (changed : string -> bool) : Prop :=
  (forall name,
     SpiritRealm.has_spirit r name = true ->
     SpiritRealm.has_spirit r' name = true)
  /\ (forall name, changed name = false -> binding r' name = binding r name)
  /\ (consistent r -> consistent r').

(** The realm of the last Invoke statement of the list that summons
    the name. *)
Fixpoint last_invoked (statements : list SpellNode) (name : string)
  : option RealmType :=
  match statements with
  | [] => None
  | statement :: rest =>
      match last_invoked rest name, statement with
      | Some realm, _ => Some realm
      | None, InvokeNode _ realm =>
          if summons statement name then Some realm else None
      | None, _ => None
      end
  end.



(** A number of repetitions and a length of the repeated text that fit
    the signed 64-bit index of a sequence. *)
Definition fits_index (length : nat) (n : Z) : Prop :=
  Z.abs n < 2 ^ 63 /\ Z.of_nat length * n < 2 ^ 63.

(** * Properties *)

(** Case analysis on the condition of the first [if] of the goal. *)
Ltac case_if :=
  match goal with
  | |- context [if ?c then _ else _] => destruct c
  end.

(** ** The execution engine *)
Module ExecutorFacts.
Import MysticalExecutor.
Section ExecutorFacts.
Context {B : Builtins}.



(** What [manifest_union] does to the slots: a result clears both, an
    exception leaves the executor as it was. *)
Lemma manifest_union_slots (self : t) (operation : OperationType)
                           (operands : list string) :
  match manifest_union self operation operands with
  | (Return _, ex) => channeled_essence ex = VNone /\ woven_force ex = VNone
  | (Raise _, ex) => ex = self
  end.
Proof.
  unfold manifest_union.
  destruct (missing_operand self operation); [reflexivity|].
  destruct (try_except _ _ _); simpl; auto.
Qed.







(** C1, at the input on which the code departs from the claim: a
    division by zero fails and leaves both slots holding the operands
    that were staged, and so does a union with the right slot empty. No
    slot is cleared on either failure. *)
Theorem manifest_union_failure_keeps_slots :
  forall (history : list history_entry) (operands : list string),
    manifest_union (mk (VInt 10) (VInt 0) history) DIVISION operands
    = (Raise (MysticalOperationFailed CannotDivideByZero),
       mk (VInt 10) (VInt 0) history)
    /\ manifest_union (mk (VInt 10) VNone history) UNION operands
       = (Raise CannotManifestWithoutBoth, mk (VInt 10) VNone history).
Proof.
  intros history operands. split; reflexivity.
Qed.



(** X1: a [None] that is channeled leaves the left slot as an empty
    one: the essence manifested next fails with the missing operand,
    and does not return [None]. *)
Theorem channeled_None_is_unstaged :
  forall (self : t) (variable : string) (operands : list string),
    manifest_union (channel_essence self variable VNone) ESSENCE operands
    = (Raise CannotManifestEssence, channel_essence self variable VNone)
    /\ kind_of CannotManifestEssence = MissingOperand.
Proof. intros self variable operands. split; reflexivity. Qed.

(** X2: a [manifest_union] that returns a result leaves both slots
    empty. *)
Theorem manifest_union_success_clears :
  forall (self ex : t) (operation : OperationType) (operands : list string)
         (result : value),
    manifest_union self operation operands = (Return result, ex) ->
    channeled_essence ex = VNone /\ woven_force ex = VNone.
Proof.
  intros self ex operation operands result H.
  pose proof (manifest_union_slots self operation operands) as Hs.
  rewrite H in Hs. exact Hs.
Qed.


End ExecutorFacts.
End ExecutorFacts.

(** ** The dictionary *)
Module DictFacts.
Section DictFacts.
Context {V : Type}.
Implicit Types (d : Dict.t V) (k : string) (v : V).

Lemma get_set_same d k v : Dict.get (Dict.set d k v) k = Some v.
Proof.
  induction d as [|[k' v'] d IH]; simpl.
  - rewrite String.eqb_refl. reflexivity.
  - destruct (String.eqb k k') eqn:E; simpl.
    + rewrite String.eqb_refl. reflexivity.
    + rewrite E. exact IH.
Qed.

Lemma get_set_other d k k0 v :
  k0 <> k -> Dict.get (Dict.set d k v) k0 = Dict.get d k0.
Proof.
  intros Hne. induction d as [|[k' v'] d IH]; simpl.
  - apply String.eqb_neq in Hne. rewrite Hne. reflexivity.
  - destruct (String.eqb k k') eqn:E; simpl.
    + apply String.eqb_eq in E. subst k'.
      apply String.eqb_neq in Hne. rewrite Hne. reflexivity.
    + rewrite IH. reflexivity.
Qed.

Lemma contains_set d k k0 v :
  Dict.contains (Dict.set d k v) k0
  = (String.eqb k0 k || Dict.contains d k0)%bool.
Proof.
  unfold Dict.contains.
  destruct (String.eqb k0 k) eqn:E; simpl.
  - apply String.eqb_eq in E. subst k0. rewrite get_set_same. reflexivity.
  - apply String.eqb_neq in E. rewrite (get_set_other _ _ _ _ E). reflexivity.
Qed.




End DictFacts.
End DictFacts.

(** ** The spirit realm *)
Module RealmFacts.
Import SpiritRealm.
Section RealmFacts.
Context {B : Builtins}.

Lemma py_int_raises (base : Z) (text : string) (e : exn) :
  py_int base text = Raise e -> e = BuiltinError PyValueError.
Proof.
  unfold py_int. destruct (PyStr.to_int base text); intros H; inversion H.
  reflexivity.
Qed.

Lemma py_float_text_raises (text : string) (e : exn) :
  py_float (VStr text) = Raise e -> e = BuiltinError PyValueError.
Proof.
  simpl. destruct (float_of_str text); intros H; inversion H. reflexivity.
Qed.

(** The rule of the mortal realm: an integer when the text reads as
    one, else the text. *)
Lemma _convert_mortal_rule (text : string) :
  _convert_mortal text
  = Return match PyStr.to_int 10 text with
           | Some z => VInt z
           | None =>
               if Nat.eqb (String.length text) 1 then VStr text
               else VStr text
           end.
Proof.
  unfold _convert_mortal, py_int.
  destruct (PyStr.to_int 10 text); simpl; [reflexivity|].
  destruct (Nat.eqb (String.length text) 1); reflexivity.
Qed.

Lemma _convert_spirit_returns (text : string) :
  exists v, _convert_spirit text = Return v.
Proof.
  unfold _convert_spirit, py_int.
  destruct (PyStr.contains_char "." text); simpl.
  - destruct (float_of_str text); simpl; [eexists; reflexivity|].
    destruct (PyStr.to_int 10 text); simpl; [|eexists; reflexivity].
    case_if; eexists; reflexivity.
  - destruct (PyStr.to_int 10 text); simpl; [|eexists; reflexivity].
    case_if; eexists; reflexivity.
Qed.

Lemma _convert_shadow_raises (text : string) (e : exn) :
  _convert_shadow text = Raise e -> e = BuiltinError PyValueError.
Proof.
  unfold _convert_shadow.
  case_if; [discriminate|].
  case_if; [discriminate|].
  case_if; [|discriminate].
  destruct (py_int 2 text) eqn:E; simpl; [discriminate|].
  intros H. inversion H. subst. exact (py_int_raises _ _ _ E).
Qed.

(** An exception of a rule is one [except Exception] catches, or it is
    the exception of [eval] on an evaluated text. *)
Lemma realm_rule_raises (raw_value : string) (realm : RealmType) (e : exn) :
  realm_rule raw_value realm = Raise e ->
  is_Exception e = true
  \/ (evaluated realm raw_value = true /\ py_eval raw_value = Raise e).
Proof.
  destruct realm; simpl.
  - rewrite _convert_mortal_rule. discriminate.
  - destruct (_convert_spirit_returns raw_value) as [v Hv]. rewrite Hv.
    discriminate.
  - intros H. apply _convert_shadow_raises in H. subst. left. reflexivity.
  - case_if; discriminate.
  - destruct (PyStr.startswith_char "[" raw_value
              && PyStr.endswith_char "]" raw_value)%bool.
    + intros H. right. split; [reflexivity | exact H].
    + destruct (PyStr.contains_char "," raw_value); discriminate.
  - destruct (PyStr.startswith_char "{" raw_value
              && PyStr.endswith_char "}" raw_value)%bool.
    + intros H. right. split; [reflexivity | exact H].
    + discriminate.
  - destruct (fromisoformat raw_value); discriminate.
Qed.

(** What [_convert_by_realm] returns and what it lets through. *)
Lemma _convert_by_realm_cases (raw_value : string) (realm : RealmType) :
  match realm_rule raw_value realm with
  | Return v => _convert_by_realm raw_value realm = Return v
  | Raise e =>
      if is_Exception e
      then _convert_by_realm raw_value realm = Return (VStr raw_value)
      else _convert_by_realm raw_value realm = Raise e
           /\ evaluated realm raw_value = true
           /\ py_eval raw_value = Raise e
  end.
Proof.
  unfold _convert_by_realm, try_except.
  destruct (realm_rule raw_value realm) as [v|e] eqn:E; [reflexivity|].
  destruct (is_Exception e) eqn:He; [reflexivity|].
  destruct (realm_rule_raises _ _ _ E) as [H|[H1 H2]]; [congruence|].
  auto.
Qed.

Lemma _infer_type_returns (raw_value : string) (realm : RealmType) :
  exists label, _infer_type raw_value realm = Return label.
Proof.
  destruct realm; simpl; try (eexists; reflexivity).
  - unfold RealmTypeInference.infer_mortal_type, py_int.
    destruct (PyStr.to_int 10 raw_value); simpl; [eexists; reflexivity|].
    destruct (Nat.eqb (String.length raw_value) 1); eexists; reflexivity.
  - unfold RealmTypeInference.infer_spirit_type, py_int.
    destruct (PyStr.contains_char "." raw_value); simpl.
    + destruct (float_of_str raw_value); simpl; eexists; reflexivity.
    + destruct (PyStr.to_int 10 raw_value); simpl; [|eexists; reflexivity].
      case_if; eexists; reflexivity.
  - unfold RealmTypeInference.infer_shadow_type.
    case_if; [eexists; reflexivity|].
    case_if; eexists; reflexivity.
Qed.

(** [summon_spirit] either writes the three entries of the name or
    raises what the conversion raised and writes nothing. *)
Lemma summon_spirit_cases (self : t) (name raw_value : string)
                          (realm : RealmType) :
  match _convert_by_realm raw_value realm with
  | Return v =>
      exists label,
        _infer_type raw_value realm = Return label
        /\ summon_spirit self name raw_value realm
           = (Return tt,
              mk (Dict.set (spirits self) name v)
                 (Dict.set (spirit_realms self) name realm)
                 (Dict.set (spirit_types self) name label))
  | Raise e => summon_spirit self name raw_value realm = (Raise e, self)
  end.
Proof.
  unfold summon_spirit.
  destruct (_convert_by_realm raw_value realm) as [v|e]; [|reflexivity].
  destruct (_infer_type_returns raw_value realm) as [label Hl].
  exists label. rewrite Hl. split; reflexivity.
Qed.


Lemma get_spirit_realm_set (d : Dict.t value) (r : Dict.t RealmType)
                           (ty : Dict.t string) (name : string)
                           (realm : RealmType) :
  get_spirit_realm (mk d (Dict.set r name realm) ty) name = Return realm.
Proof.
  unfold get_spirit_realm. simpl. rewrite DictFacts.get_set_same.
  reflexivity.
Qed.



End RealmFacts.
End RealmFacts.

(** ** The interpreter *)
Module InterpreterFacts.
Import SpellInterpreter.
Section InterpreterFacts.
Context {B : Builtins}.

Lemma keeps_refl (r : SpiritRealm.t) (changed : string -> bool) :
  keeps r r changed.
Proof. unfold keeps. split; [|split]; auto. Qed.

Lemma keeps_weaken (r r' : SpiritRealm.t) (c c' : string -> bool) :
  (forall name, c' name = false -> c name = false) ->
  keeps r r' c -> keeps r r' c'.
Proof.
  intros Hc [H1 [H2 H3]]. unfold keeps. split; [|split]; auto.
Qed.

Lemma keeps_trans (r1 r2 r3 : SpiritRealm.t) (c : string -> bool) :
  keeps r1 r2 c -> keeps r2 r3 c -> keeps r1 r3 c.
Proof.
  intros [H1 [H2 H3]] [K1 [K2 K3]]. unfold keeps. split; [|split]; auto.
  intros name Hn. rewrite (K2 name Hn). auto.
Qed.

(** Writing the three entries of one name keeps the rest. *)
Lemma keeps_write (r : SpiritRealm.t) (name : string) (v : value)
                  (realm : RealmType) (label : string) :
  keeps r
    (SpiritRealm.mk (Dict.set (SpiritRealm.spirits r) name v)
                    (Dict.set (SpiritRealm.spirit_realms r) name realm)
                    (Dict.set (SpiritRealm.spirit_types r) name label))
    (fun n => String.eqb n name).
Proof.
  unfold keeps. split; [|split].
  - intros n Hn. unfold SpiritRealm.has_spirit in *. simpl.
    rewrite DictFacts.contains_set, Hn. apply orb_true_r.
  - intros n Hn. apply String.eqb_neq in Hn. unfold binding. simpl.
    rewrite !(DictFacts.get_set_other _ _ _ _ Hn). reflexivity.
  - intros H n. destruct (H n) as [H1 H2]. simpl.
    rewrite !DictFacts.contains_set, H1, H2. split; reflexivity.
Qed.

Lemma summon_spirit_keeps (r r' : SpiritRealm.t) (name raw_value : string)
                          (realm : RealmType) (o : outcome unit) :
  SpiritRealm.summon_spirit r name raw_value realm = (o, r') ->
  keeps r r' (fun n => String.eqb n name).
Proof.
  intros H.
  pose proof (RealmFacts.summon_spirit_cases r name raw_value realm) as Hs.
  destruct (SpiritRealm._convert_by_realm raw_value realm) as [v|e].
  - destruct Hs as [label [_ Hs]]. rewrite Hs in H. inversion H. subst.
    apply keeps_write.
  - rewrite Hs in H. inversion H. subst. apply keeps_refl.
Qed.

Lemma input_realm (self self' : t) (p : MysticalIO.prompt)
                  (o : outcome string) :
  input self p = (o, self') ->
  spirit_realm self' = spirit_realm self
  /\ executor self' = executor self
  /\ mystical_mode self' = mystical_mode self.
Proof.
  unfold input. simpl. destruct (stdin self); intros H; inversion H;
    repeat split; reflexivity.
Qed.

Lemma existsb_cons_false (name variable : string) (rest : list string) :
  existsb (String.eqb name) (variable :: rest) = false ->
  String.eqb name variable = false
  /\ existsb (String.eqb name) rest = false.
Proof. simpl. intros H. apply orb_false_elim in H. exact H. Qed.

(** An invocation, ended or interrupted, keeps every name it does not
    summon. *)
Lemma _execute_invocation_keeps (variables : list string) (realm : RealmType) :
  forall (self self' : t) (o : outcome unit),
    _execute_invocation self variables realm = (o, self') ->
    keeps (spirit_realm self) (spirit_realm self')
          (fun n => existsb (String.eqb n) variables).
Proof.
  induction variables as [|variable rest IH]; intros self self' o H.
  - simpl in H. inversion H. subst. apply keeps_refl.
  - simpl in H.
    destruct (input self _) as [[raw_value|e] self1] eqn:Hin.
    + apply input_realm in Hin. destruct Hin as [Hr [_ Hm]].
      destruct (SpiritRealm.summon_spirit (spirit_realm self1)
                  variable raw_value realm) as [[u|e] r] eqn:Hs.
      * apply summon_spirit_keeps in Hs. rewrite Hr in Hs.
        apply IH in H.
        assert (Hsame : spirit_realm
                          (if mystical_mode self1
                           then print (with_spirit_realm self1 r)
                                  (MysticalIO.announce_spirit_summoned
                                     (mystical_mode self1) variable realm)
                           else with_spirit_realm self1 r) = r).
        { case_if; reflexivity. }
        rewrite Hsame in H.
        apply keeps_trans with (r2 := r).
        -- apply (keeps_weaken _ _ (fun n => String.eqb n variable)); [|exact Hs].
           intros n Hn. apply existsb_cons_false in Hn. tauto.
        -- apply (keeps_weaken _ _ (fun n => existsb (String.eqb n) rest));
             [|exact H].
           intros n Hn. apply existsb_cons_false in Hn. tauto.
      * inversion H. subst. simpl.
        apply summon_spirit_keeps in Hs. rewrite Hr in Hs.
        apply (keeps_weaken _ _ (fun n => String.eqb n variable)); [|exact Hs].
        intros n Hn. apply existsb_cons_false in Hn. tauto.
    + inversion H. subst. apply input_realm in Hin.
      destruct Hin as [Hr _]. rewrite Hr. apply keeps_refl.
Qed.




(** A manifestation that returns binds its result; one that raises
    leaves the realm as it is. *)
Lemma _execute_manifestation_cases (self self' : t)
                                   (operation : OperationType)
                                   (operands : list string)
                                   (result_variable : string)
                                   (o : outcome unit) :
  _execute_manifestation self operation operands result_variable = (o, self') ->
  match o with
  | Return _ =>
      exists result ex result_realm,
        MysticalExecutor.manifest_union (executor self) operation operands
        = (Return result, ex)
        /\ _infer_result_realm (with_executor self ex) operands
           = Return result_realm
        /\ spirit_realm self'
           = SpiritRealm.bind_manifestation (spirit_realm self)
               result_variable result result_realm
  | Raise _ => spirit_realm self' = spirit_realm self
  end.
Proof.
  unfold _execute_manifestation.
  destruct (MysticalExecutor.manifest_union _ _ _) as [[result|e] ex].
  - destruct (_infer_result_realm _ _) as [result_realm|e] eqn:Hr.
    + intros H. inversion H. subst.
      exists result, ex, result_realm.
      split; [reflexivity|]. split; [exact Hr|].
      case_if; reflexivity.
    + intros H. inversion H. reflexivity.
  - intros H. inversion H. reflexivity.
Qed.



(** The loop over a program that is split in two. *)
Lemma execute_statements_app (pre rest : list SpellNode) :
  forall (self : t),
    execute_statements self (pre ++ rest)
    = match execute_statements self pre with
      | (Return _, self1) => execute_statements self1 rest
      | (Raise e, self1) => (Raise e, self1)
      end.
Proof.
  induction pre as [|statement pre IH]; intros self; simpl; [reflexivity|].
  destruct (execute_statement self statement) as [[u|e] self1];
    [apply IH | reflexivity].
Qed.

(** A program whose statement [statement] raises after the statements
    before it have run ends there, whatever follows. *)
Lemma execute_spell_program_aborts (self self1 self2 : t)
                                   (pre post : list SpellNode)
                                   (statement : SpellNode) (e : exn) :
  execute_statements (ritual_begun self) pre = (Return tt, self1) ->
  execute_statement self1 statement = (Raise e, self2) ->
  exists final,
    execute_spell_program self (pre ++ statement :: post) = (Raise e, final)
    /\ spirit_realm final = spirit_realm self2
    /\ executor final = executor self2.
Proof.
  intros Hpre Hs. unfold execute_spell_program.
  rewrite execute_statements_app, Hpre. simpl. rewrite Hs.
  destruct (is_Exception e); [|exists self2; auto].
  eexists. split; [reflexivity|]. case_if; split; reflexivity.
Qed.



Lemma RealmType_eqb_eq (a b : RealmType) : RealmType_eqb a b = true <-> a = b.
Proof. destruct a, b; simpl; split; intros H; try reflexivity; discriminate. Qed.

Lemma realm_in_In (r : RealmType) (realms : list RealmType) :
  realm_in r realms = true <-> In r realms.
Proof.
  unfold realm_in. rewrite existsb_exists. split.
  - intros [x [Hx He]]. apply RealmType_eqb_eq in He. subst. exact Hx.
  - intros H. exists r. split; [exact H | apply RealmType_eqb_eq; reflexivity].
Qed.

(** The realms [_infer_result_realm] collects are those of the operands
    that are bound. *)
Lemma collect_realms_In (self : t) (operands : list string) :
  forall realms,
    collect_realms self operands = Return realms ->
    forall r, In r realms <-> some_operand_from (spirit_realm self) operands r.
Proof.
  induction operands as [|operand rest IH]; simpl; intros realms H r.
  - inversion H. split; [intros [] | intros [n [[] _]]].
  - destruct (SpiritRealm.has_spirit (spirit_realm self) operand) eqn:Hh.
    + unfold SpiritRealm.get_spirit_realm in H.
      destruct (Dict.get (SpiritRealm.spirit_realms (spirit_realm self))
                  operand) as [r0|] eqn:Hg; simpl in H; [|discriminate].
      destruct (collect_realms self rest) as [realms0|e]; simpl in H;
        [|discriminate].
      inversion H. subst. specialize (IH realms0 eq_refl r). split.
      * intros [Hr|Hr].
        -- subst. exists operand. repeat split; auto. left. reflexivity.
        -- apply IH in Hr. destruct Hr as [n [Hn Hrest]].
           exists n. split; [right; exact Hn | exact Hrest].
      * intros [n [[Hn|Hn] [H1 H2]]].
        -- subst. left. congruence.
        -- right. apply IH. exists n. auto.
    + specialize (IH realms H r). rewrite IH. split.
      * intros [n [Hn Hrest]]. exists n. split; [right; exact Hn | exact Hrest].
      * intros [n [[Hn|Hn] [H1 H2]]].
        -- subst. congruence.
        -- exists n. auto.
Qed.

(** An exception of the collection is for a name that [has_spirit]
    holds of and that has no realm. *)
Lemma collect_realms_raises (self : t) (operands : list string) (e : exn) :
  collect_realms self operands = Raise e ->
  exists name,
    In name operands
    /\ SpiritRealm.has_spirit (spirit_realm self) name = true
    /\ e = SpiritNotSummoned name.
Proof.
  induction operands as [|operand rest IH]; simpl; [discriminate|].
  destruct (SpiritRealm.has_spirit (spirit_realm self) operand) eqn:Hh.
  - unfold SpiritRealm.get_spirit_realm.
    destruct (Dict.get (SpiritRealm.spirit_realms (spirit_realm self))
                operand) as [r0|]; simpl.
    + destruct (collect_realms self rest) as [realms0|e0]; simpl;
        [discriminate|].
      intros H. inversion H. subst.
      destruct (IH eq_refl) as [name [Hn Hrest]].
      exists name. split; [right; exact Hn | exact Hrest].
    + intros H. inversion H. subst.
      exists operand. repeat split; auto.
  - intros H. destruct (IH H) as [name [Hn Hrest]].
    exists name. split; [right; exact Hn | exact Hrest].
Qed.

(** The promotion of [_infer_result_realm], by the realms of the bound
    operands. *)
Lemma _infer_result_realm_promotes (self : t) (operands : list string)
                                   (r : RealmType) :
  _infer_result_realm self operands = Return r ->
  (some_operand_from (spirit_realm self) operands SPIRIT -> r = SPIRIT)
  /\ (~ some_operand_from (spirit_realm self) operands SPIRIT ->
      some_operand_from (spirit_realm self) operands SHADOW -> r = SHADOW)
  /\ (~ some_operand_from (spirit_realm self) operands SPIRIT ->
      ~ some_operand_from (spirit_realm self) operands SHADOW -> r = MORTAL).
Proof.
  unfold _infer_result_realm.
  destruct (collect_realms self operands) as [realms|e] eqn:Hc; simpl;
    [|discriminate].
  pose proof (collect_realms_In self operands realms Hc) as Hin.
  intros H.
  assert (Hr : r = if realm_in SPIRIT realms then SPIRIT
                   else if realm_in SHADOW realms then SHADOW else MORTAL).
  { destruct realms as [|r0 realms0]; [inversion H; reflexivity|].
    destruct (realm_in SPIRIT (r0 :: realms0));
      [|destruct (realm_in SHADOW (r0 :: realms0))];
      inversion H; reflexivity. }
  clear H. subst r.
  destruct (realm_in SPIRIT realms) eqn:Hsp.
  - apply realm_in_In, Hin in Hsp. repeat split; auto; contradiction.
  - assert (Hno : ~ some_operand_from (spirit_realm self) operands SPIRIT).
    { intros Hs. apply Hin, realm_in_In in Hs. congruence. }
    destruct (realm_in SHADOW realms) eqn:Hsh.
    + apply realm_in_In, Hin in Hsh. repeat split; auto; contradiction.
    + assert (Hno' : ~ some_operand_from (spirit_realm self) operands SHADOW).
      { intros Hs. apply Hin, realm_in_In in Hs. congruence. }
      repeat split; auto; contradiction.
Qed.


(** C7: a manifestation that returns binds its result in the realm
    inferred from the operands listed: SPIRIT when some bound operand is
    of the spirit realm, else SHADOW when some is of the shadow realm,
    else MORTAL; so an operand of the spirit realm with one of the
    mortal realm gives a result of the spirit realm. *)
Theorem manifest_result_realm :
  forall (self self' : t) (operation : OperationType)
         (operands : list string) (result_variable : string),
    execute_statement self (ManifestNode operation operands result_variable)
    = (Return tt, self') ->
    exists r,
      SpiritRealm.get_spirit_realm (spirit_realm self') result_variable
      = Return r
      /\ (some_operand_from (spirit_realm self) operands SPIRIT -> r = SPIRIT)
      /\ (~ some_operand_from (spirit_realm self) operands SPIRIT ->
          some_operand_from (spirit_realm self) operands SHADOW -> r = SHADOW)
      /\ (~ some_operand_from (spirit_realm self) operands SPIRIT ->
          ~ some_operand_from (spirit_realm self) operands SHADOW ->
          r = MORTAL).
Proof.
  intros self self' operation operands result_variable H. simpl in H.
  apply _execute_manifestation_cases in H.
  destruct H as [result [ex [r [_ [Hr Hb]]]]].
  exists r. split.
  - rewrite Hb. apply RealmFacts.get_spirit_realm_set.
  - exact (_infer_result_realm_promotes _ _ _ Hr).
Qed.

(** C8: a Conditional or a WhileLoop statement is run as a statement of
    no known type: it raises the unknown-statement error, changes
    nothing, and the program ends with that error whatever follows. *)
Theorem unexecuted_statement_aborts :
  forall (self self1 : t) (pre post : list SpellNode) (statement : SpellNode),
    type_of_node statement = CConditionalNode
    \/ type_of_node statement = CWhileLoopNode ->
    execute_statements (ritual_begun self) pre = (Return tt, self1) ->
    execute_statement self1 statement
    = (Raise (UnknownStatementType (type_of_node statement)), self1)
    /\ kind_of (UnknownStatementType (type_of_node statement))
       = UnknownStatement
    /\ exists final,
         execute_spell_program self (pre ++ statement :: post)
         = (Raise (UnknownStatementType (type_of_node statement)), final)
         /\ spirit_realm final = spirit_realm self1
         /\ executor final = executor self1.
Proof.
  intros self self1 pre post statement Hty Hpre.
  assert (Hs : execute_statement self1 statement
               = (Raise (UnknownStatementType (type_of_node statement)),
                  self1)).
  { destruct statement; simpl in Hty; destruct Hty as [H|H];
      try discriminate; reflexivity. }
  split; [exact Hs|]. split; [reflexivity|].
  exact (execute_spell_program_aborts _ _ _ _ _ _ _ Hpre Hs).
Qed.

(** C10: in the inference of the result realm an operand name that is
    not bound is passed over: the realms collected, and the realm
    inferred, are those of the list without it; when none of the names
    listed is bound the result realm is MORTAL; and an exception, were
    there one, is never for a name that is not bound. *)
Theorem _infer_result_realm_skips_unbound :
  forall (self : t) (operands : list string),
    (forall pre name post,
       operands = pre ++ name :: post ->
       SpiritRealm.has_spirit (spirit_realm self) name = false ->
       collect_realms self operands = collect_realms self (pre ++ post)
       /\ _infer_result_realm self operands
          = _infer_result_realm self (pre ++ post))
    /\ ((forall name,
           In name operands ->
           SpiritRealm.has_spirit (spirit_realm self) name = false) ->
        _infer_result_realm self operands = Return MORTAL)
    /\ (forall e,
          _infer_result_realm self operands = Raise e ->
          exists name,
            In name operands
            /\ SpiritRealm.has_spirit (spirit_realm self) name = true
            /\ e = SpiritNotSummoned name).
Proof.
  intros self operands. split; [|split].
  - intros pre name post Hop Hn. subst operands.
    assert (Hc : collect_realms self (pre ++ name :: post)
                 = collect_realms self (pre ++ post)).
    { induction pre as [|p pre IH]; simpl.
      - rewrite Hn. reflexivity.
      - rewrite IH. reflexivity. }
    split; [exact Hc|]. unfold _infer_result_realm. rewrite Hc. reflexivity.
  - intros Hall.
    assert (Hc : collect_realms self operands = Return []).
    { induction operands as [|p rest IH]; simpl; [reflexivity|].
      rewrite (Hall p (or_introl eq_refl)).
      apply IH. intros n Hn. apply Hall. right. exact Hn. }
    unfold _infer_result_realm. rewrite Hc. reflexivity.
  - intros e He. apply (collect_realms_raises self operands e).
    unfold _infer_result_realm in He.
    destruct (collect_realms self operands) as [realms|e0]; simpl in He;
      [|congruence].
    destruct realms; [discriminate|].
    destruct (realm_in SPIRIT (r :: realms));
      [|destruct (realm_in SHADOW (r :: realms))]; discriminate.
Qed.

End InterpreterFacts.
End InterpreterFacts.

(** ** The theorems at concrete inputs

    The builtins are those of [Sample]. *)
Module Examples.
Import SpellInterpreter Scenario.
#[local] Existing Instance Sample.builtins.







(** The union of 3 and 4 returns 7 and clears both slots. *)
Lemma manifest_union_success_clears_witness :
  MysticalExecutor.manifest_union
    (MysticalExecutor.mk (VInt 3) (VInt 4) []) UNION ["x"; "y"]
  = (Return (VInt 7),
     MysticalExecutor.mk VNone VNone
       [MysticalExecutor.Manifested UNION (VInt 3) (VInt 4) (VInt 7)])
  /\ MysticalExecutor.channeled_essence
       (snd (MysticalExecutor.manifest_union
               (MysticalExecutor.mk (VInt 3) (VInt 4) []) UNION ["x"; "y"]))
     = VNone
  /\ MysticalExecutor.woven_force
       (snd (MysticalExecutor.manifest_union
               (MysticalExecutor.mk (VInt 3) (VInt 4) []) UNION ["x"; "y"]))
     = VNone.
Proof.
  split; [reflexivity|].
  exact (ExecutorFacts.manifest_union_success_clears
           (MysticalExecutor.mk (VInt 3) (VInt 4) []) _ UNION ["x"; "y"]
           (VInt 7) eq_refl).
Defined.




(** Their fusion is bound in the spirit realm. *)
Lemma manifest_result_realm_witness :
  execute_statement spirit_and_mortal manifest_fusion
  = (Return tt, snd (execute_statement spirit_and_mortal manifest_fusion))
  /\ SpiritRealm.get_spirit_realm (spirit_realm spirit_and_mortal) "x"
     = Return SPIRIT
  /\ SpiritRealm.get_spirit_realm (spirit_realm spirit_and_mortal) "y"
     = Return MORTAL
  /\ SpiritRealm.get_spirit_realm
       (spirit_realm (snd (execute_statement spirit_and_mortal manifest_fusion)))
       "z"
     = Return SPIRIT.
Proof.
  assert (Hrun : execute_statement spirit_and_mortal manifest_fusion
                 = (Return tt,
                    snd (execute_statement spirit_and_mortal manifest_fusion))).
  { reflexivity. }
  split; [exact Hrun|]. split; [reflexivity|]. split; [reflexivity|].
  destruct (InterpreterFacts.manifest_result_realm _ _ _ _ _ Hrun)
    as [r [Hr [Hspirit _]]].
  rewrite Hr. f_equal. apply Hspirit.
  exists "x". split; [left; reflexivity|]. split; reflexivity.
Defined.

(** A conditional after an invocation, with a statement after it. *)
Lemma unexecuted_statement_aborts_witness :
  let self := init true ["3"] in
  let pre := [InvokeNode ["x"] MORTAL] in
  let statement :=
    ConditionalNode (CondText "x") [SpeakNode "x" "the void"] None in
  (type_of_node statement = CConditionalNode
   \/ type_of_node statement = CWhileLoopNode)
  /\ fst (execute_statements (ritual_begun self) pre) = Return tt
  /\ exists final,
       execute_spell_program self
         (pre ++ statement :: [SpeakNode "x" "the void"])
       = (Raise (UnknownStatementType CConditionalNode), final).
Proof.
  cbv zeta.
  split; [left; reflexivity|]. split; [reflexivity|].
  destruct (InterpreterFacts.unexecuted_statement_aborts
              (init true ["3"])
              (snd (execute_statements (ritual_begun (init true ["3"]))
                      [InvokeNode ["x"] MORTAL]))
              [InvokeNode ["x"] MORTAL] [SpeakNode "x" "the void"]
              (ConditionalNode (CondText "x") [SpeakNode "x" "the void"] None)
              (or_introl eq_refl) eq_refl)
    as [_ [_ [final [Hrun _]]]].
  exists final. exact Hrun.
Defined.

(** With [x] bound and [ghost] not, [ghost] is passed over; with no
    name bound the realm is MORTAL. *)
Lemma _infer_result_realm_skips_unbound_witness :
  SpiritRealm.has_spirit (spirit_realm spirit_and_mortal) "ghost" = false
  /\ _infer_result_realm spirit_and_mortal ["x"; "ghost"]
     = _infer_result_realm spirit_and_mortal ["x"]
  /\ _infer_result_realm (init true []) ["ghost"; "y"] = Return MORTAL.
Proof.
  split; [reflexivity|]. split.
  - exact (proj2 (proj1 (InterpreterFacts._infer_result_realm_skips_unbound
                           spirit_and_mortal ["x"; "ghost"])
                        ["x"] "ghost" [] eq_refl eq_refl)).
  - apply (proj1 (proj2 (InterpreterFacts._infer_result_realm_skips_unbound
                           (init true []) ["ghost"; "y"]))).
    intros name _. reflexivity.
Defined.

End Examples.

(** ** Texts *)
Module TextFacts.

Lemma split_on_cons (c : ascii) (s : string) :
  exists f fs, PyStr.split_on c s = f :: fs.
Proof.
  induction s as [|d s IH]; simpl; [eexists; eexists; reflexivity|].
  destruct (Ascii.eqb c d); [eexists; eexists; reflexivity|].
  destruct IH as [f [fs IH]]. rewrite IH. eexists; eexists; reflexivity.
Qed.

(** Joining the fragments of a text with the separator gives the text
    back. *)
Lemma join_split_on (c : ascii) (s : string) :
  PyStr.join (String c EmptyString) (PyStr.split_on c s) = s.
Proof.
  induction s as [|d s IH]; [reflexivity|].
  simpl PyStr.split_on.
  destruct (split_on_cons c s) as [f [fs Hs]]. rewrite Hs in *.
  destruct (Ascii.eqb c d) eqn:E.
  - apply Ascii.eqb_eq in E. subst d.
    change (PyStr.join (String c EmptyString) (EmptyString :: f :: fs))
      with (String c (PyStr.join (String c EmptyString) (f :: fs))).
    rewrite IH. reflexivity.
  - destruct fs as [|g fs].
    + simpl in *. rewrite IH. reflexivity.
    + change (PyStr.join (String c EmptyString) (String d f :: g :: fs))
        with (String d (f ++ String c EmptyString
                          ++ PyStr.join (String c EmptyString) (g :: fs))).
      change (PyStr.join (String c EmptyString) (f :: g :: fs))
        with (f ++ String c EmptyString
                ++ PyStr.join (String c EmptyString) (g :: fs))%string in IH.
      rewrite IH. reflexivity.
Qed.

(** No fragment holds the separator. *)
Lemma split_on_fragments (c : ascii) (s : string) :
  Forall (fun f => PyStr.contains_char c f = false) (PyStr.split_on c s).
Proof.
  induction s as [|d s IH]; simpl.
  - constructor; [reflexivity | constructor].
  - destruct (Ascii.eqb c d) eqn:E.
    + constructor; [reflexivity | exact IH].
    + destruct (PyStr.split_on c s) as [|f fs].
      * constructor; [simpl; rewrite E; reflexivity | constructor].
      * inversion IH; subst. constructor; [|assumption].
        simpl. rewrite E. assumption.
Qed.







Lemma binary_char (c : ascii) :
  (Ascii.eqb c "0" || Ascii.eqb c "1")%bool = true ->
  c = "0"%char \/ c = "1"%char.
Proof.
  intros H. apply orb_prop in H.
  destruct H as [H|H]; apply Ascii.eqb_eq in H; auto.
Qed.

Lemma scan_digits_binary (s : string) :
  forall acc : Z,
    0 <= acc ->
    PyStr.all_binary s = true ->
    exists z,
      PyStr.scan_digits 2 acc false (list_ascii_of_string s) = Some z
      /\ 0 <= z.
Proof.
  induction s as [|c s IH]; intros acc Hacc Hb.
  - exists acc. split; [reflexivity | exact Hacc].
  - simpl in Hb. apply andb_prop in Hb. destruct Hb as [Hc Hs].
    destruct (binary_char _ Hc); subst c.
    + change (PyStr.scan_digits 2 acc false
                (list_ascii_of_string (String "0" s)))
        with (PyStr.scan_digits 2 (acc * 2 + 0) false
                (list_ascii_of_string s)).
      apply IH; [lia | exact Hs].
    + change (PyStr.scan_digits 2 acc false
                (list_ascii_of_string (String "1" s)))
        with (PyStr.scan_digits 2 (acc * 2 + 1) false
                (list_ascii_of_string s)).
      apply IH; [lia | exact Hs].
Qed.

(** A text of the digits 0 and 1 that is not empty reads in base 2 as
    an integer that is not negative. *)
Lemma to_int_binary (s : string) :
  PyStr.all_binary s = true -> s <> EmptyString ->
  exists z, PyStr.to_int 2 s = Some z /\ 0 <= z.
Proof.
  destruct s as [|c s]; [congruence|]. intros Hb _.
  simpl in Hb. apply andb_prop in Hb. destruct Hb as [Hc Hs].
  destruct (binary_char _ Hc); subst c.
  - destruct (scan_digits_binary s 0 (Z.le_refl 0) Hs) as [z [Hz Hpos]].
    exists (1 * z). split; [|lia].
    change (PyStr.to_int 2 (String "0" s))
      with (option_map (Z.mul 1)
              (PyStr.scan_digits 2 0 false (list_ascii_of_string s))).
    rewrite Hz. reflexivity.
  - assert (H1 : 0 <= 1) by lia.
    destruct (scan_digits_binary s 1 H1 Hs) as [z [Hz Hpos]].
    exists (1 * z). split; [|lia].
    change (PyStr.to_int 2 (String "1" s))
      with (option_map (Z.mul 1)
              (PyStr.scan_digits 2 1 false (list_ascii_of_string s))).
    rewrite Hz. reflexivity.
Qed.

(** The lowered text of a text of the digits 0 and 1 is the text. *)
Lemma lower_binary (s : string) :
  PyStr.all_binary s = true -> PyStr.lower s = s.
Proof.
  induction s as [|c s IH]; [reflexivity|]. simpl. intros Hb.
  apply andb_prop in Hb. destruct Hb as [Hc Hs].
  rewrite (IH Hs). destruct (binary_char _ Hc); subst c; reflexivity.
Qed.

Lemma remove_from_length (sub : string) (s : string) :
  forall skip : nat,
    (String.length (PyStr.remove_from sub skip s) <= String.length s)%nat.
Proof.
  induction s as [|c s IH]; intros skip; [simpl; lia|].
  cbn [PyStr.remove_from].
  destruct skip as [|k].
  - destruct (String.prefix sub (String c s)).
    + apply Nat.le_trans with (String.length s); [apply IH|].
      cbn [String.length]. lia.
    + cbn [String.length]. apply le_n_S, IH.
  - apply Nat.le_trans with (String.length s); [apply IH|].
    cbn [String.length]. lia.
Qed.

Lemma remove_from_skips (sub : string) (s : string) :
  forall skip : nat,
    (String.length s <= skip)%nat -> PyStr.remove_from sub skip s = EmptyString.
Proof.
  induction s as [|c s IH]; intros skip H; [reflexivity|]. simpl in *.
  destruct skip as [|k]; [lia|]. apply IH. lia.
Qed.

Lemma prefix_refl (s : string) : String.prefix s s = true.
Proof.
  induction s as [|c s IH]; [reflexivity|]. simpl.
  destruct (ascii_dec c c); [exact IH | congruence].
Qed.

Lemma append_length (s t : string) :
  String.length (s ++ t) = (String.length s + String.length t)%nat.
Proof.
  induction s as [|c s IH]; simpl; [reflexivity|]. rewrite IH. reflexivity.
Qed.

Lemma repeat_nat_length (s : string) (n : nat) :
  String.length (PyStr.repeat_nat s n) = (String.length s * n)%nat.
Proof.
  induction n as [|n IH]; cbn [PyStr.repeat_nat]; [simpl; lia|].
  rewrite append_length, IH. lia.
Qed.

End TextFacts.

(** ** The coercions of the realms and the bindings *)
Module CoercionFacts.
Import SpiritRealm.
Section CoercionFacts.
Context {B : Builtins}.

(** What [summon_spirit] stores: the value converted and the label
    inferred. *)
Lemma summon_spirit_stores (self : t) (name raw_value : string)
                           (realm : RealmType) (v : value) (label : string) :
  _convert_by_realm raw_value realm = Return v ->
  _infer_type raw_value realm = Return label ->
  exists self',
    summon_spirit self name raw_value realm = (Return tt, self')
    /\ get_spirit_essence self' name = Return v
    /\ get_spirit_realm self' name = Return realm
    /\ get_spirit_type self' name = label.
Proof.
  intros Hv Hl. unfold summon_spirit. rewrite Hv, Hl.
  eexists. split; [reflexivity|].
  unfold get_spirit_essence, get_spirit_realm, get_spirit_type. simpl.
  rewrite !DictFacts.get_set_same. repeat split.
Qed.

Lemma binary_words (text : string) :
  PyStr.all_binary text = true ->
  PyStr.in_list (PyStr.lower text) ["true"; "yes"; "light"; "1"; "on"]
  = String.eqb text "1"
  /\ PyStr.in_list (PyStr.lower text) ["false"; "no"; "dark"; "0"; "off"]
     = String.eqb text "0"
  /\ PyStr.in_list (PyStr.lower text)
       ["true"; "false"; "yes"; "no"; "light"; "dark"] = false.
Proof.
  intros Hb. rewrite (TextFacts.lower_binary _ Hb).
  destruct text as [|c s]; [repeat split|].
  simpl in Hb. apply andb_prop in Hb. destruct Hb as [Hc _].
  destruct (TextFacts.binary_char _ Hc); subst c;
    destruct s; repeat split.
Qed.

(** The cases of the rule of the shadow realm. *)
Lemma _convert_shadow_cases :
  forall text : string,
    exists v,
      _convert_by_realm text SHADOW = Return v
      /\ (text = "" -> v = VStr "")
      /\ (text <> "" ->
          is_bool v = true
          \/ exists z, v = VInt z /\ 0 <= z /\ PyStr.all_binary text = true)
      /\ (PyStr.in_list (PyStr.lower text)
            ["true"; "yes"; "light"; "1"; "on"] = false ->
          PyStr.in_list (PyStr.lower text)
            ["false"; "no"; "dark"; "0"; "off"] = false ->
          PyStr.all_binary text = false ->
          v = VBool true).
Proof.
  intros text. unfold _convert_by_realm, realm_rule, _convert_shadow.
  destruct (PyStr.in_list (PyStr.lower text)
              ["true"; "yes"; "light"; "1"; "on"]) eqn:Ht.
  { exists (VBool true). split; [reflexivity|]. split; [|split].
    - intros ->. discriminate.
    - intros _. left. reflexivity.
    - discriminate. }
  destruct (PyStr.in_list (PyStr.lower text)
              ["false"; "no"; "dark"; "0"; "off"]) eqn:Hf.
  { exists (VBool false). split; [reflexivity|]. split; [|split].
    - intros ->. discriminate.
    - intros _. left. reflexivity.
    - discriminate. }
  destruct (PyStr.all_binary text) eqn:Hb.
  - destruct text as [|c s].
    + exists (VStr ""). split; [reflexivity|]. split; [|split].
      * reflexivity.
      * congruence.
      * discriminate.
    + destruct (TextFacts.to_int_binary (String c s) Hb) as [z [Hz Hpos]];
        [discriminate|].
      exists (VInt z). unfold py_int. rewrite Hz.
      split; [reflexivity|]. split; [|split].
      * discriminate.
      * intros _. right. exists z. auto.
      * discriminate.
  - exists (VBool (truthy (VStr text))).
    destruct text as [|c s]; [discriminate|].
    split; [reflexivity|]. split; [|split].
    + discriminate.
    + intros _. left. reflexivity.
    + reflexivity.
Qed.

(** X5: the rule of the shadow realm never stores a text but the empty
    one: the empty text is kept as it is ([int("", 2)] raises and the
    text is the fallback); every other text becomes a boolean, or, when
    it is made of the digits 0 and 1 and is neither [0] nor [1], the
    integer it reads as in base 2, which is not negative; a text that
    is no known word and not binary becomes [True]. *)
Theorem shadow_conversion :
  forall text : string,
    exists v,
      _convert_by_realm text SHADOW = Return v
      /\ (text = "" -> v = VStr "")
      /\ (text <> "" ->
          is_bool v = true
          \/ exists z, v = VInt z /\ 0 <= z /\ PyStr.all_binary text = true)
      /\ (PyStr.in_list (PyStr.lower text)
            ["true"; "yes"; "light"; "1"; "on"] = false ->
          PyStr.in_list (PyStr.lower text)
            ["false"; "no"; "dark"; "0"; "off"] = false ->
          PyStr.all_binary text = false ->
          v = VBool true).
Proof.
  exact _convert_shadow_cases.
Qed.

(** X6: the type label of a spirit of the shadow realm is [binary]
    exactly when its text is made of the digits 0 and 1 only, and [bool]
    otherwise; but of such texts only those other than [0], [1] and the
    empty text are stored as integers: [0] and [1] are stored as
    booleans and the empty text as a text, under the label [binary]. *)
Theorem shadow_label :
  forall (self : t) (name text : string),
    exists self' v,
      summon_spirit self name text SHADOW = (Return tt, self')
      /\ get_spirit_essence self' name = Return v
      /\ get_spirit_type self' name
         = (if PyStr.all_binary text then "binary" else "bool")
      /\ ((exists z, v = VInt z)
          <-> PyStr.all_binary text = true
              /\ text <> "" /\ text <> "0" /\ text <> "1")
      /\ (text = "0" -> v = VBool false)
      /\ (text = "1" -> v = VBool true)
      /\ (text = "" -> v = VStr "").
Proof.
  intros self name text.
  destruct (_convert_shadow_cases text) as [v [Hv [Hempty [Hfull Hother]]]].
  assert (Hl : _infer_type text SHADOW
               = Return (if PyStr.all_binary text then "binary" else "bool")).
  { unfold _infer_type, RealmTypeInference.infer_shadow_type.
    destruct (PyStr.all_binary text) eqn:Hb.
    - destruct (binary_words text Hb) as [_ [_ Hw]]. rewrite Hw. reflexivity.
    - case_if; reflexivity. }
  destruct (summon_spirit_stores self name text SHADOW v _ Hv Hl)
    as [self' [Hs [He [_ Ht]]]].
  exists self', v. split; [exact Hs|]. split; [exact He|].
  split; [exact Ht|].
  assert (H0 : text = "0" -> v = VBool false).
  { intros ->. vm_compute in Hv. congruence. }
  assert (H1 : text = "1" -> v = VBool true).
  { intros ->. vm_compute in Hv. congruence. }
  split; [|split; [exact H0 | split; [exact H1 | exact Hempty]]].
  split.
  - intros [z Hz]. subst v.
    destruct (String.eqb_spec text "") as [E|E];
      [specialize (Hempty E); discriminate|].
    destruct (Hfull E) as [Hbool | [z' [_ [_ Hb]]]]; [discriminate|].
    split; [exact Hb|]. split; [exact E|].
    split; intros E'; [specialize (H0 E') | specialize (H1 E')]; discriminate.
  - intros [Hb [Hne [Hn0 Hn1]]].
    destruct (binary_words text Hb) as [Ht1 [Hf0 _]].
    apply String.eqb_neq in Hn0, Hn1.
    destruct (TextFacts.to_int_binary text Hb Hne) as [z [Hz _]].
    exists z.
    unfold _convert_by_realm, realm_rule, _convert_shadow in Hv.
    rewrite Ht1, Hn1, Hf0, Hn0, Hb in Hv.
    unfold py_int in Hv. rewrite Hz in Hv. simpl in Hv. congruence.
Qed.



(** X9: a text of the astral realm that is not in brackets is never
    evaluated: it is stored as the list of its fragments between the
    commas, a list that is not empty, whose fragments hold no comma and
    which, joined with commas, give the text back. *)
Theorem astral_split :
  forall text : string,
    evaluated ASTRAL text = false ->
    exists fragments,
      _convert_by_realm text ASTRAL = Return (VList (map VStr fragments))
      /\ fragments <> []
      /\ PyStr.join "," fragments = text
      /\ Forall (fun f => PyStr.contains_char "," f = false) fragments.
Proof.
  intros text Hev. unfold evaluated in Hev.
  unfold _convert_by_realm, realm_rule. rewrite Hev.
  destruct (PyStr.contains_char "," text) eqn:Hc.
  - exists (PyStr.split_on "," text). split; [reflexivity|].
    split; [|split].
    + destruct (TextFacts.split_on_cons "," text) as [f [fs H]].
      rewrite H. discriminate.
    + apply TextFacts.join_split_on.
    + apply TextFacts.split_on_fragments.
  - exists [text]. split; [reflexivity|]. split; [discriminate|].
    split; [reflexivity|]. constructor; [exact Hc | constructor].
Qed.

(** X10: [bind_manifestation] then the three lookups: the name holds
    the value, the realm and the name of the value's type; every other
    name keeps its binding, and the three dictionaries still hold the
    same names. *)
Theorem bind_manifestation_lookup :
  forall (self : t) (name : string) (v : value) (realm : RealmType),
    let self' := bind_manifestation self name v realm in
    get_spirit_essence self' name = Return v
    /\ get_spirit_realm self' name = Return realm
    /\ get_spirit_type self' name = type_name v
    /\ has_spirit self' name = true
    /\ (forall other, other <> name -> binding self' other = binding self other)
    /\ (consistent self -> consistent self').
Proof.
  intros self name v realm self'.
  unfold self', bind_manifestation, get_spirit_essence, get_spirit_realm,
    get_spirit_type, has_spirit, Dict.contains. simpl.
  rewrite !DictFacts.get_set_same.
  split; [reflexivity|]. split; [reflexivity|]. split; [reflexivity|].
  split; [reflexivity|].
  pose proof (InterpreterFacts.keeps_write self name v realm (type_name v))
    as [_ [K2 K3]].
  split; [|exact K3].
  intros other Hne. apply K2. apply String.eqb_neq. exact Hne.
Qed.

(** X11: the lookups of a name that was never bound: the essence and
    the realm raise the unbound-variable error, each with its own
    message, and the type is [unknown] and raises nothing. *)
Theorem unbound_lookups :
  forall (self : t) (name : string),
    consistent self ->
    has_spirit self name = false ->
    get_spirit_essence self name = Raise (SpiritNotSummonedUseInvoke name)
    /\ get_spirit_realm self name = Raise (SpiritNotSummoned name)
    /\ get_spirit_type self name = "unknown"
    /\ kind_of (SpiritNotSummonedUseInvoke name) = UnboundVariable
    /\ kind_of (SpiritNotSummoned name) = UnboundVariable.
Proof.
  intros self name Hc Hn. destruct (Hc name) as [Hr Ht].
  unfold has_spirit in Hn. rewrite Hn in Hr, Ht.
  unfold Dict.contains in *.
  unfold get_spirit_essence, get_spirit_realm, get_spirit_type.
  destruct (Dict.get (spirits self) name); [discriminate|].
  destruct (Dict.get (spirit_realms self) name); [discriminate|].
  destruct (Dict.get (spirit_types self) name); [discriminate|].
  repeat split.
Qed.

End CoercionFacts.
End CoercionFacts.

(** ** The operations of the engine *)
Module OperationFacts.
Import MysticalExecutor.
Section OperationFacts.
Context {B : Builtins}.

(** What a [manifest_union] that passed the guards returned or raised
    is what the operation did. *)
Lemma manifest_union_result (self ex : t) (operation : OperationType)
                            (operands : list string) (o : outcome value) :
  manifest_union self operation operands = (o, ex) ->
  match missing_operand self operation with
  | Some e => o = Raise e
  | None =>
      o = try_except
            (perform operation (channeled_essence self) (woven_force self))
            is_Exception (fun e => Raise (MysticalOperationFailed e))
  end.
Proof.
  unfold manifest_union.
  destruct (missing_operand self operation).
  - intros H. inversion H. reflexivity.
  - destruct (try_except _ _ _); intros H; inversion H; reflexivity.
Qed.

(** X12: two booleans are combined as the integers 0 and 1: their
    union, their difference and their fusion are the integer sum,
    difference and product, not booleans; the logical branches of the
    three operations are never reached by two booleans. *)
Theorem booleans_are_integers :
  forall (a b : bool) (history : list history_entry)
         (operands : list string),
    fst (manifest_union (mk (VBool a) (VBool b) history) UNION operands)
    = Return (VInt (Z.b2z a + Z.b2z b))
    /\ fst (manifest_union (mk (VBool a) (VBool b) history)
              DIFFERENCE operands)
       = Return (VInt (Z.b2z a - Z.b2z b))
    /\ fst (manifest_union (mk (VBool a) (VBool b) history) FUSION operands)
       = Return (VInt (Z.b2z a * Z.b2z b)).
Proof.
  intros a b history operands. repeat split; reflexivity.
Qed.

Lemma py_truediv_float (a b v : value) :
  py_truediv a b = Return v -> exists f, v = VFloat f.
Proof.
  unfold py_truediv.
  destruct (as_number a) as [x|]; [|discriminate].
  destruct (as_number b) as [y|]; [|discriminate].
  unfold arith. destruct x as [x|x], y as [y|y]; simpl.
  - destruct (y =? 0); [discriminate|].
    destruct (int_truediv x y); simpl; [|discriminate].
    intros H. inversion H. eexists. reflexivity.
  - destruct (float_of_Z x); simpl; [|discriminate].
    case_if; [discriminate|]. intros H. inversion H. eexists. reflexivity.
  - destruct (float_of_Z y); simpl; [|discriminate].
    case_if; [discriminate|]. intros H. inversion H. eexists. reflexivity.
  - case_if; [discriminate|]. intros H. inversion H. eexists. reflexivity.
Qed.

(** X13: a division that returns, returns a float, also for two
    integers of which one divides the other. *)
Theorem division_returns_float :
  forall (self ex : t) (operands : list string) (v : value),
    manifest_union self DIVISION operands = (Return v, ex) ->
    exists f, v = VFloat f.
Proof.
  intros self ex operands v H.
  apply manifest_union_result in H.
  destruct (missing_operand self DIVISION); [discriminate|].
  simpl in H. unfold try_except in H.
  destruct (_perform_division (channeled_essence self) (woven_force self))
    as [v0|e] eqn:Hd; [|destruct (is_Exception e); discriminate].
  inversion H. subst v0. clear H.
  unfold _perform_division in Hd.
  destruct (is_int_or_float _ && is_int_or_float _)%bool.
  - destruct (eq_zero (woven_force self)); [discriminate|].
    exact (py_truediv_float _ _ _ Hd).
  - destruct (py_float (woven_force self)) as [r|]; simpl in Hd;
      [|discriminate].
    destruct (float_is_zero r); [discriminate|].
    destruct (py_float (channeled_essence self)) as [l|]; simpl in Hd;
      [|discriminate].
    exact (py_truediv_float _ _ _ Hd).
Qed.

(** X14: repetition is one-sided. A text on the left and an integer on
    the right, when the number of repetitions and the length of the
    result fit the index of a sequence, give the text repeated, of
    length the length of the text times the integer, empty when the
    integer is not positive. An integer on the left and a text on the
    right are multiplied as floats: the product when the text reads as
    a float, and a failure otherwise. *)
Theorem fusion_repeats_left_text :
  forall (s : string) (n : Z) (history : list history_entry)
         (operands : list string),
    fits_index (String.length s) n ->
    fst (manifest_union (mk (VStr s) (VInt n) history) FUSION operands)
    = Return (VStr (PyStr.repeat s n))
    /\ String.length (PyStr.repeat s n)
       = (String.length s * Z.to_nat n)%nat
    /\ (forall f,
          float_of_Z n = Return f ->
          fst (manifest_union (mk (VInt n) (VStr s) history) FUSION operands)
          = match float_of_str s with
            | Some g => Return (VFloat (PrimFloat.mul f g))
            | None => Raise (MysticalOperationFailed (BuiltinError PyValueError))
            end).
Proof.
  intros s n history operands _. split; [reflexivity|].
  split; [apply TextFacts.repeat_nat_length|].
  intros f Hf.
  unfold manifest_union. simpl. unfold _perform_fusion. simpl.
  rewrite Hf. simpl. destruct (float_of_str s); reflexivity.
Qed.

(** X15: the comparison operations of the enumeration are not run by
    the engine: with both slots staged the call fails as an unknown
    operation, with a slot empty it fails with the missing operand;
    either way the executor is left as it was. *)
Theorem comparison_is_unknown_operation :
  forall (self : t) (operation : OperationType) (operands : list string),
    In operation [GREATER_THAN; LESS_THAN; EQUALS; NOT_EQUALS] ->
    manifest_union self operation operands
    = (Raise (if (staged (channeled_essence self)
                  && staged (woven_force self))%bool
              then MysticalOperationFailed (UnknownMysticalOperation operation)
              else CannotManifestWithoutBoth),
       self).
Proof.
  intros self operation operands Hin.
  unfold manifest_union, missing_operand, staged.
  destruct Hin as [H|[H|[H|[H|[]]]]]; subst operation;
    destruct (is_None (channeled_essence self));
    destruct (is_None (woven_force self)); reflexivity.
Qed.

(** X16: the difference of two texts always returns a text, no longer
    than the left one: the occurrences of the right text are dropped
    from the left one. An empty right text leaves the left text as it
    is, and a text less itself is the empty text. *)
Theorem difference_of_texts :
  forall (l r : string) (history : list history_entry)
         (operands : list string),
    fst (manifest_union (mk (VStr l) (VStr r) history) DIFFERENCE operands)
    = Return (VStr (PyStr.remove_all l r))
    /\ (String.length (PyStr.remove_all l r) <= String.length l)%nat
    /\ PyStr.remove_all l "" = l
    /\ PyStr.remove_all l l = "".
Proof.
  intros l r history operands. split; [reflexivity|].
  split; [|split].
  - unfold PyStr.remove_all. destruct r; [lia|].
    apply TextFacts.remove_from_length.
  - reflexivity.
  - destruct l as [|c l]; [reflexivity|].
    unfold PyStr.remove_all. cbn [PyStr.remove_from].
    rewrite TextFacts.prefix_refl.
    apply TextFacts.remove_from_skips. simpl. lia.
Qed.

End OperationFacts.
End OperationFacts.

(** ** Programs *)
Module ProgramFacts.
Import SpellInterpreter.
Section ProgramFacts.
Context {B : Builtins}.




(** X17: Channel, Weave and Speak of a name that is not bound fail with
    the unbound-variable error and change nothing: not the realm, not
    the slots, not what was read or printed. *)
Theorem unbound_variable_statements :
  forall (self : t) (variable target : string),
    SpiritRealm.has_spirit (spirit_realm self) variable = false ->
    execute_statement self (ChannelNode variable)
    = (Raise (SpiritNotSummonedUseInvoke variable), self)
    /\ execute_statement self (WeaveNode variable)
       = (Raise (SpiritNotSummonedUseInvoke variable), self)
    /\ execute_statement self (SpeakNode variable target)
       = (Raise (SpiritNotSummonedUseInvoke variable), self)
    /\ kind_of (SpiritNotSummonedUseInvoke variable) = UnboundVariable.
Proof.
  intros self variable target Hn.
  unfold SpiritRealm.has_spirit, Dict.contains in Hn.
  simpl. unfold _execute_channeling, _execute_weaving, _execute_speaking,
    SpiritRealm.get_spirit_essence.
  destruct (Dict.get (SpiritRealm.spirits (spirit_realm self)) variable);
    [discriminate|].
  repeat split.
Qed.

(** Speak of a bound name prints one record, with the value bound,
    and changes nothing else. *)
Lemma speak_prints_only :
  forall (self : t) (variable target : string) (v : value),
    SpiritRealm.get_spirit_essence (spirit_realm self) variable = Return v ->
    exists record,
      execute_statement self (SpeakNode variable target)
      = (Return tt, print self [record])
      /\ record
         = (if mystical_mode self
            then MysticalIO.Spoken
                   (MysticalIO._get_target_description target) variable v
            else MysticalIO.SpokenPlainly
                   (PyStr.remove_all target "the ") variable v).
Proof.
  intros self variable target v Hv. simpl. unfold _execute_speaking.
  rewrite Hv. eexists. split; [|reflexivity].
  destruct (mystical_mode self); reflexivity.
Qed.

Lemma summon_spirit_returns (r : SpiritRealm.t) (name raw_value : string)
                            (realm : RealmType) :
  evaluated realm raw_value = false ->
  exists r',
    SpiritRealm.summon_spirit r name raw_value realm = (Return tt, r').
Proof.
  intros Hev.
  pose proof (RealmFacts._convert_by_realm_cases raw_value realm) as Hc.
  pose proof (RealmFacts.summon_spirit_cases r name raw_value realm) as Hs.
  destruct (SpiritRealm.realm_rule raw_value realm) as [v|e].
  - rewrite Hc in Hs. destruct Hs as [label [_ Hs]]. eexists. exact Hs.
  - destruct (is_Exception e).
    + rewrite Hc in Hs. destruct Hs as [label [_ Hs]]. eexists. exact Hs.
    + destruct Hc as [_ [Hc _]]. congruence.
Qed.


Lemma input_reads (self self1 : t) (p : MysticalIO.prompt) (line : string) :
  input self p = (Return line, self1) ->
  stdin self = line :: stdin self1
  /\ executor self1 = executor self
  /\ spirit_realm self1 = spirit_realm self
  /\ mystical_mode self1 = mystical_mode self.
Proof.
  unfold input. simpl. destruct (stdin self); intros H; inversion H.
  repeat split.
Qed.




(** X19: an invocation with more names than there are lines to read,
    from a realm whose texts are never evaluated, fails with EOFError
    once the lines are read: nothing is left to read, and the names
    that had a line are bound. *)
Theorem invocation_out_of_lines :
  forall (variables : list string) (realm : RealmType) (self : t),
    realm <> ASTRAL -> realm <> DIVINE ->
    (List.length (stdin self) < List.length variables)%nat ->
    exists self',
      execute_statement self (InvokeNode variables realm)
      = (Raise (BuiltinError PyEOFError), self')
      /\ stdin self' = []
      /\ forall name,
           In name (firstn (List.length (stdin self)) variables) ->
           SpiritRealm.has_spirit (spirit_realm self') name = true.
Proof.
  intros variables realm self Hna Hnd.
  change (execute_statement self (InvokeNode variables realm))
    with (_execute_invocation self variables realm).
  assert (Hev : forall text, evaluated realm text = false).
  { intros text. destruct realm; try reflexivity; congruence. }
  revert self. induction variables as [|variable rest IH]; intros self Hlen.
  - simpl in Hlen. lia.
  - cbn [_execute_invocation].
    destruct (input self _) as [[line|e] self1] eqn:Hin.
    + apply input_reads in Hin. destruct Hin as [Hstdin [_ [Hr1 Hm1]]].
      destruct (summon_spirit_returns (spirit_realm self1) variable line realm
                  (Hev line)) as [r Hs].
      rewrite Hs.
      pose proof (RealmFacts.summon_spirit_cases (spirit_realm self1) variable
                    line realm) as Hc.
      destruct (SpiritRealm._convert_by_realm line realm) as [v|e];
        [|congruence].
      destruct Hc as [label [_ Hc]]. rewrite Hc in Hs.
      match goal with
      | |- exists _, _execute_invocation ?s _ _ = _ /\ _ =>
          remember s as self2 eqn:Hself2
      end.
      assert (H2 : stdin self2 = stdin self1 /\ spirit_realm self2 = r).
      { subst self2. simpl. destruct (mystical_mode self1); split;
          reflexivity. }
      destruct H2 as [Hstd2 Hr2].
      rewrite Hstdin in Hlen. simpl in Hlen.
      destruct (IH self2) as [self' [Hrun [Hempty Hbound]]].
      { rewrite Hstd2. lia. }
      exists self'. split; [exact Hrun|]. split; [exact Hempty|].
      rewrite Hstd2 in Hbound.
      pose proof (InterpreterFacts._execute_invocation_keeps _ _ _ _ _ Hrun)
        as [Hkeep2 _].
      rewrite Hstdin. simpl.
      intros name [Hname|Hname]; [|exact (Hbound _ Hname)].
      subst name. apply Hkeep2. rewrite Hr2.
      inversion Hs. unfold SpiritRealm.has_spirit. simpl.
      rewrite DictFacts.contains_set, String.eqb_refl. reflexivity.
    + unfold input in Hin. simpl in Hin.
      destruct (stdin self) as [|line lines] eqn:Hstdin; [|discriminate].
      inversion Hin. subst. eexists. split; [reflexivity|].
      split; [exact Hstdin|]. simpl. intros name [].
Qed.

(** X20: a manifestation that returns leaves nothing staged: the
    manifestation that follows it, whatever its operation, fails with
    the missing operand and changes nothing, unless a value is
    channeled again first. *)
Theorem manifest_twice_misses_operand :
  forall (self self1 : t) (operation operation' : OperationType)
         (operands operands' : list string) (result result' : string),
    execute_statement self (ManifestNode operation operands result)
    = (Return tt, self1) ->
    exists e,
      execute_statement self1 (ManifestNode operation' operands' result')
      = (Raise e, self1)
      /\ kind_of e = MissingOperand.
Proof.
  intros self self1 operation operation' operands operands' result result' H.
  simpl in H. unfold _execute_manifestation in H.
  pose proof (ExecutorFacts.manifest_union_slots (executor self) operation
                operands) as Hslots.
  destruct (MysticalExecutor.manifest_union (executor self) operation
              operands) as [[v|e] ex]; [|discriminate].
  destruct Hslots as [Hl Hr].
  destruct (_infer_result_realm (with_executor self ex) operands)
    as [realm|e]; [|discriminate].
  assert (Hex : executor self1 = ex).
  { inversion H. simpl. destruct (mystical_mode self); reflexivity. }
  simpl. unfold _execute_manifestation, MysticalExecutor.manifest_union,
    MysticalExecutor.missing_operand.
  rewrite Hex, Hl, Hr. simpl.
  assert (Hsame : with_executor self1 ex = self1).
  { rewrite <- Hex. destruct self1. reflexivity. }
  destruct operation'; eexists; (split; [rewrite Hsame; reflexivity|]);
    reflexivity.
Qed.

(** X21: the realm of a manifested result is never VOID, ASTRAL,
    DIVINE or TEMPORAL: it is SPIRIT, SHADOW or MORTAL, and MORTAL
    whenever no bound operand is of the spirit or of the shadow realm,
    so that the union of two lists of the astral realm is a spirit of
    the mortal realm. *)
Theorem result_realm_range :
  forall (self self' : t) (operation : OperationType)
         (operands : list string) (result_variable : string),
    execute_statement self (ManifestNode operation operands result_variable)
    = (Return tt, self') ->
    exists r,
      SpiritRealm.get_spirit_realm (spirit_realm self') result_variable
      = Return r
      /\ (r = SPIRIT \/ r = SHADOW \/ r = MORTAL)
      /\ ((forall name r0,
             In name operands ->
             SpiritRealm.has_spirit (spirit_realm self) name = true ->
             SpiritRealm.get_spirit_realm (spirit_realm self) name = Return r0 ->
             r0 <> SPIRIT /\ r0 <> SHADOW) ->
          r = MORTAL).
Proof.
  intros self self' operation operands result_variable H. simpl in H.
  apply InterpreterFacts._execute_manifestation_cases in H.
  destruct H as [result [ex [r [_ [Hr Hb]]]]].
  exists r. split; [rewrite Hb; apply RealmFacts.get_spirit_realm_set|].
  pose proof (InterpreterFacts._infer_result_realm_promotes _ _ _ Hr)
    as [_ [_ Hm]].
  simpl in Hm. split.
  - unfold _infer_result_realm in Hr.
    destruct (collect_realms (with_executor self ex) operands) as [realms|e];
      simpl in Hr; [|discriminate].
    destruct realms as [|r0 realms]; [inversion Hr; auto|].
    destruct (realm_in SPIRIT (r0 :: realms));
      [|destruct (realm_in SHADOW (r0 :: realms))]; inversion Hr; auto.
  - intros Hnone. apply Hm.
    + intros [name [Hin [Hhas Hget]]].
      assert (Hg : SpiritRealm.get_spirit_realm (spirit_realm self) name
                   = Return SPIRIT).
      { unfold SpiritRealm.get_spirit_realm. rewrite Hget. reflexivity. }
      destruct (Hnone name SPIRIT Hin Hhas Hg) as [Hc _]. congruence.
    + intros [name [Hin [Hhas Hget]]].
      assert (Hg : SpiritRealm.get_spirit_realm (spirit_realm self) name
                   = Return SHADOW).
      { unfold SpiritRealm.get_spirit_realm. rewrite Hget. reflexivity. }
      destruct (Hnone name SHADOW Hin Hhas Hg) as [_ Hc]. congruence.
Qed.


(** Closes a goal on the mode and the output of an interpreter that is
    [self] with something printed or nothing. *)
Ltac printed :=
  simpl;
  match goal with
  | |- context [mystical_mode ?s] =>
      let Hmode := fresh "Hmode" in
      destruct (mystical_mode s) eqn:Hmode; simpl;
      (split; [try exact Hmode; reflexivity|]);
      first [ eexists; reflexivity
            | exists []; rewrite app_nil_r; reflexivity ]
  end.

(** What is printed is never taken back, and the mode does not change:
    one statement. *)
Lemma execute_statement_prints (self self' : t) (statement : SpellNode)
                               (o : outcome unit) :
  execute_statement self statement = (o, self') ->
  mystical_mode self' = mystical_mode self
  /\ exists out, stdout self' = stdout self ++ out.
Proof.
  assert (Hnil : forall s : t, stdout s = stdout s ++ [])
    by (intros s; rewrite app_nil_r; reflexivity).
  destruct statement; simpl.
  - revert self. induction variables as [|variable rest IH]; intros self H.
    + simpl in H. inversion H. subst. split; [reflexivity|].
      exists []. apply Hnil.
    + cbn [_execute_invocation] in H.
      unfold input in H. cbn [stdin print spirit_realm executor mystical_mode
                                stdout] in H.
      destruct (stdin self) as [|line lines].
      * inversion H. subst. split; [reflexivity|]. eexists. reflexivity.
      * destruct (SpiritRealm.summon_spirit _ variable line realm)
          as [[u|e] r].
        -- apply IH in H. destruct H as [Hm [out Hout]].
           cbn [with_spirit_realm mystical_mode] in Hm, Hout.
           destruct (mystical_mode self) eqn:Hmode;
             cbn [print with_spirit_realm mystical_mode stdout] in Hm, Hout.
           ++ split; [congruence|]. rewrite <- !app_assoc in Hout.
              eexists. exact Hout.
           ++ split; [congruence|]. rewrite <- !app_assoc in Hout.
              eexists. exact Hout.
        -- inversion H. subst. split; [reflexivity|]. eexists. reflexivity.
  - unfold _execute_channeling.
    destruct (SpiritRealm.get_spirit_essence _ _); intros H; inversion H;
      subst; clear H; printed.
  - unfold _execute_weaving.
    destruct (SpiritRealm.get_spirit_essence _ _); intros H; inversion H;
      subst; clear H; printed.
  - unfold _execute_manifestation.
    destruct (MysticalExecutor.manifest_union _ _ _) as [[v|e] ex];
      [destruct (_infer_result_realm _ _)|]; intros H; inversion H;
      subst; clear H; printed.
  - unfold _execute_speaking.
    destruct (SpiritRealm.get_spirit_essence _ _); intros H; inversion H;
      subst; clear H; printed.
  - intros H; inversion H; subst; clear H; printed.
  - intros H; inversion H; subst; clear H; printed.
  - intros H; inversion H; subst; clear H; printed.
  - intros H; inversion H; subst; clear H; printed.
Qed.

Lemma execute_statements_prints (statements : list SpellNode) :
  forall (self self' : t) (o : outcome unit),
    execute_statements self statements = (o, self') ->
    mystical_mode self' = mystical_mode self
    /\ exists out, stdout self' = stdout self ++ out.
Proof.
  induction statements as [|statement rest IH]; intros self self' o H.
  - inversion H. split; [reflexivity|]. exists []. rewrite app_nil_r.
    reflexivity.
  - simpl in H.
    destruct (execute_statement self statement) as [[u|e] self1] eqn:Hs;
      apply execute_statement_prints in Hs; destruct Hs as [Hm [out Hout]].
    + apply IH in H. destruct H as [Hm' [out' Hout']].
      split; [congruence|]. exists (out ++ out').
      rewrite Hout', Hout, app_assoc. reflexivity.
    + inversion H. subst. split; [exact Hm|]. exists out. exact Hout.
Qed.

(** X23: what a run prints. In the mystical mode the beginning of the
    ritual comes first and the end last: the completion when the
    program returns, the failure with its exception when it raises an
    Exception. In the technical mode only the failure is printed, as an
    execution error. An exception that is no Exception is announced in
    neither mode. Nothing printed before the run is lost. *)
Theorem run_announcements :
  forall (self : t) (statements : list SpellNode),
    let run := execute_spell_program self statements in
    mystical_mode (snd run) = mystical_mode self
    /\ exists out,
         stdout (snd run)
         = stdout self
           ++ (if mystical_mode self then [MysticalIO.RitualBeginning] else [])
           ++ out
           ++ match fst run with
              | Return _ =>
                  if mystical_mode self then [MysticalIO.RitualCompletion]
                  else []
              | Raise e =>
                  if is_Exception e
                  then (if mystical_mode self then [MysticalIO.RitualFailure e]
                        else [MysticalIO.ExecutionError e])
                  else []
              end.
Proof.
  intros self statements run. subst run. unfold execute_spell_program.
  destruct (execute_statements (ritual_begun self) statements)
    as [o final] eqn:Hrun.
  apply execute_statements_prints in Hrun.
  destruct Hrun as [Hm [out Hout]].
  assert (Hb : mystical_mode (ritual_begun self) = mystical_mode self
               /\ stdout (ritual_begun self)
                  = stdout self
                    ++ (if mystical_mode self
                        then [MysticalIO.RitualBeginning] else [])).
  { unfold ritual_begun. destruct (mystical_mode self) eqn:Hmode.
    - split; [exact Hmode | reflexivity].
    - split; [exact Hmode | rewrite app_nil_r; reflexivity]. }
  destruct Hb as [Hbm Hbo]. rewrite Hbm in Hm. rewrite Hbo in Hout.
  destruct o as [u|e]; cbn [fst snd];
    [|destruct (is_Exception e) eqn:He; cbn [fst snd]; rewrite ?He];
    rewrite ?Hm; destruct (mystical_mode self) eqn:Hmode;
    (split; [first [exact Hm | reflexivity | simpl; congruence]|]);
    exists out; cbn [print stdout];
    rewrite Hout; repeat rewrite <- app_assoc; simpl;
    rewrite ?app_nil_r; reflexivity.
Qed.

End ProgramFacts.
End ProgramFacts.

(** ** The status report *)
Module StatusFacts.
Import SpellInterpreter.
Section StatusFacts.
Context {B : Builtins}.









End StatusFacts.
End StatusFacts.

(** ** The transformer and the type information of the parser *)
Module ParserFacts.
Import SpellTransformer SpellParser.

Lemma stage_all_operands (calls : list staging) :
  forall (self self1 : SpellTransformer.t) (variables : list string),
    stage_all self calls = Some (variables, self1) ->
    current_operands self1 = current_operands self ++ variables
    /\ List.length variables = List.length calls.
Proof.
  induction calls as [|call rest IH]; intros self self1 variables H.
  - inversion H. subst. rewrite app_nil_r. auto.
  - cbn [stage_all] in H.
    assert (Hcall : forall (words : list string) (children : list child)
                           (make : string -> SpellNode),
               (forall v, match make v with
                          | ChannelNode w | WeaveNode w => w = v
                          | _ => False
                          end) ->
               match
                 match first_variable words (rev children) with
                 | Some variable =>
                     Some (make variable,
                           {| current_operands :=
                                current_operands self ++ [variable] |})
                 | None => None
                 end
               with
               | None => None
               | Some (node, self2) =>
                   match stage_all self2 rest with
                   | None => None
                   | Some (found, self3) =>
                       Some (match node with
                             | ChannelNode v | WeaveNode v => v :: found
                             | _ => found
                             end, self3)
                   end
               end = Some (variables, self1) ->
               current_operands self1 = current_operands self ++ variables
               /\ List.length variables = S (List.length rest)).
    { intros words children make Hmake Hrun.
      destruct (first_variable words (rev children)) as [variable|];
        [|discriminate].
      destruct (stage_all _ rest) as [[found self3]|] eqn:Hrest;
        [|discriminate].
      apply IH in Hrest. destruct Hrest as [Hops Hlen]. simpl in Hops.
      specialize (Hmake variable).
      destruct (make variable); try contradiction; subst;
        inversion Hrun; subst; simpl;
        rewrite Hops, <- app_assoc, Hlen; auto. }
    destruct call as [children|children].
    + exact (Hcall _ children ChannelNode (fun v => eq_refl) H).
    + exact (Hcall _ children WeaveNode (fun v => eq_refl) H).
Qed.

(** X25: the operands of a Manifest node are the operands the
    transformer held before, followed by the variables of every CHANNEL
    and WEAVE statement transformed since, in their order and however
    many they are: one for each statement, not a left and a right one.
    The manifestation empties the list, so a MANIFEST that follows at
    once has no operand. *)
Theorem manifestation_takes_every_staged_variable :
  forall (self self1 : SpellTransformer.t) (calls : list staging)
         (variables : list string) (children again : list child),
    stage_all self calls = Some (variables, self1) ->
    operands (fst (manifestation self1 children))
    = current_operands self ++ variables
    /\ List.length variables = List.length calls
    /\ operands (fst (manifestation (snd (manifestation self1 children))
                        again)) = [].
Proof.
  intros self self1 calls variables children again H.
  apply stage_all_operands in H. destruct H as [Hops Hlen].
  unfold manifestation.
  destruct (find_manifestation None None children) as [o r].
  destruct (find_manifestation None None again) as [o' r'].
  simpl. auto.
Qed.

Lemma get_assign_realm (variables : list string) (realm : RealmType) :
  forall (type_info : Dict.t type_entry) (name : string),
    Dict.get (assign_realm type_info variables realm) name
    = if existsb (String.eqb name) variables
      then Some (mkEntry realm (RealmTypeInference.get_realm_types realm) None)
      else Dict.get type_info name.
Proof.
  induction variables as [|var rest IH]; intros type_info name;
    [reflexivity|].
  cbn [assign_realm existsb]. rewrite IH.
  destruct (existsb (String.eqb name) rest); [rewrite orb_true_r; reflexivity|].
  rewrite orb_false_r.
  destruct (String.eqb_spec name var) as [E|E].
  - subst. apply DictFacts.get_set_same.
  - apply DictFacts.get_set_other. auto.
Qed.

Lemma get_infer_from (statements : list SpellNode) :
  forall (type_info : Dict.t type_entry) (name : string),
    Dict.get (infer_from type_info statements) name
    = match last_invoked statements name with
      | Some realm =>
          Some (mkEntry realm (RealmTypeInference.get_realm_types realm) None)
      | None => Dict.get type_info name
      end.
Proof.
  induction statements as [|statement rest IH]; intros type_info name;
    [reflexivity|].
  cbn [last_invoked].
  destruct statement; cbn [infer_from]; rewrite IH;
    destruct (last_invoked rest name); try reflexivity.
  rewrite get_assign_realm. unfold summons.
  destruct (existsb (String.eqb name) variables); reflexivity.
Qed.

Lemma last_invoked_none (statements : list SpellNode) (name : string) :
  (forall statement, In statement statements -> summons statement name = false) ->
  last_invoked statements name = None.
Proof.
  induction statements as [|statement rest IH]; intros H; [reflexivity|].
  cbn [last_invoked]. rewrite IH by (intros s Hs; apply H; right; exact Hs).
  destruct statement; try reflexivity.
  rewrite (H _ (or_introl eq_refl)). reflexivity.
Qed.

Lemma last_invoked_last (before after : list SpellNode)
                        (variables : list string) (realm : RealmType)
                        (name : string) :
  summons (InvokeNode variables realm) name = true ->
  (forall statement, In statement after -> summons statement name = false) ->
  last_invoked (before ++ InvokeNode variables realm :: after) name
  = Some realm.
Proof.
  intros Hin Hafter.
  induction before as [|statement rest IH].
  - cbn [app last_invoked]. rewrite (last_invoked_none _ _ Hafter), Hin.
    reflexivity.
  - cbn [app last_invoked]. rewrite IH. reflexivity.
Qed.

(** X26: the type information of a program has no entry for a name
    that no Invoke statement of the program names, so none for a name
    that only a Manifest statement binds. For a name that an Invoke
    statement names, the entry gives the realm of the last such
    statement and the types possible in that realm, and leaves the
    inferred type unset. *)
Theorem _infer_types_last_invocation :
  forall (statements : list SpellNode) (name : string),
    ((forall statement,
        In statement statements -> summons statement name = false) ->
     Dict.get (_infer_types statements) name = None)
    /\ forall (before after : list SpellNode) (variables : list string)
              (realm : RealmType),
         statements = before ++ InvokeNode variables realm :: after ->
         summons (InvokeNode variables realm) name = true ->
         (forall statement,
            In statement after -> summons statement name = false) ->
         Dict.get (_infer_types statements) name
         = Some (mkEntry realm (RealmTypeInference.get_realm_types realm)
                   None).
Proof.
  intros statements name. unfold _infer_types. split.
  - intros H. rewrite get_infer_from, (last_invoked_none _ _ H). reflexivity.
  - intros before after variables realm Hs Hin Hafter. subst statements.
    rewrite get_infer_from, (last_invoked_last _ _ _ _ _ Hin Hafter).
    reflexivity.
Qed.

End ParserFacts.

(** ** The theorems at work *)
Module Instances.
Import SpellInterpreter Scenario.
#[local] Existing Instance Sample.builtins.

(** The text [a,b] of the astral realm is the list of [a] and [b]. *)
Lemma astral_split_witness :
  evaluated ASTRAL "a,b" = false
  /\ exists fragments,
       SpiritRealm._convert_by_realm "a,b" ASTRAL
       = Return (VList (map VStr fragments))
       /\ fragments <> []
       /\ PyStr.join "," fragments = "a,b"
       /\ Forall (fun f => PyStr.contains_char "," f = false) fragments.
Proof.
  split; [reflexivity|].
  exact (CoercionFacts.astral_split "a,b" eq_refl).
Defined.



(** The lookups of [x] in the realm nothing was summoned into. *)
Lemma unbound_lookups_witness :
  SpiritRealm.has_spirit SpiritRealm.init "x" = false
  /\ SpiritRealm.get_spirit_essence SpiritRealm.init "x"
     = Raise (SpiritNotSummonedUseInvoke "x")
  /\ SpiritRealm.get_spirit_type SpiritRealm.init "x" = "unknown".
Proof.
  split; [reflexivity|].
  destruct (CoercionFacts.unbound_lookups SpiritRealm.init "x"
              (fun name => conj eq_refl eq_refl) eq_refl)
    as [He [_ [Ht _]]].
  split; [exact He | exact Ht].
Defined.

(** Six divided by three is the float 2. *)
Lemma division_returns_float_witness :
  fst (MysticalExecutor.manifest_union
         (MysticalExecutor.mk (VInt 6) (VInt 3) []) DIVISION ["x"; "y"])
  = Return (VFloat 2)
  /\ exists f, VFloat 2 = VFloat f.
Proof.
  split; [reflexivity|].
  exact (OperationFacts.division_returns_float
           (MysticalExecutor.mk (VInt 6) (VInt 3) [])
           (MysticalExecutor.mk VNone VNone
              [MysticalExecutor.Manifested DIVISION (VInt 6) (VInt 3)
                 (VFloat 2)])
           ["x"; "y"] (VFloat 2) eq_refl).
Defined.

(** The text [ab] three times. *)
Lemma fusion_repeats_left_text_witness :
  fits_index (String.length "ab") 3
  /\ fst (MysticalExecutor.manifest_union
            (MysticalExecutor.mk (VStr "ab") (VInt 3) []) FUSION ["x"; "y"])
     = Return (VStr "ababab").
Proof.
  assert (H : fits_index (String.length "ab") 3).
  { split; vm_compute; reflexivity. }
  split; [exact H|].
  destruct (OperationFacts.fusion_repeats_left_text "ab" 3 [] ["x"; "y"] H)
    as [Hrun _].
  exact Hrun.
Defined.

(** The operation EQUALS, with both slots staged. *)
Lemma comparison_is_unknown_operation_witness :
  In EQUALS [GREATER_THAN; LESS_THAN; EQUALS; NOT_EQUALS]
  /\ MysticalExecutor.manifest_union
       (MysticalExecutor.mk (VInt 1) (VInt 1) []) EQUALS ["x"; "y"]
     = (Raise (MysticalOperationFailed (UnknownMysticalOperation EQUALS)),
        MysticalExecutor.mk (VInt 1) (VInt 1) []).
Proof.
  assert (H : In EQUALS [GREATER_THAN; LESS_THAN; EQUALS; NOT_EQUALS]).
  { right. right. left. reflexivity. }
  split; [exact H|].
  exact (OperationFacts.comparison_is_unknown_operation
           (MysticalExecutor.mk (VInt 1) (VInt 1) []) EQUALS ["x"; "y"] H).
Defined.



(** Channel of [x] before anything is summoned. *)
Lemma unbound_variable_statements_witness :
  SpiritRealm.has_spirit (spirit_realm (init false [])) "x" = false
  /\ execute_statement (init false []) (ChannelNode "x")
     = (Raise (SpiritNotSummonedUseInvoke "x"), init false []).
Proof.
  split; [reflexivity|].
  destruct (ProgramFacts.unbound_variable_statements (init false []) "x"
              "the void" eq_refl) as [Hc _].
  exact Hc.
Defined.


(** Two names on one line. *)
Lemma invocation_out_of_lines_witness :
  (List.length (stdin (init false ["1"])) < List.length ["x"; "y"])%nat
  /\ exists self',
       execute_statement (init false ["1"]) (InvokeNode ["x"; "y"] MORTAL)
       = (Raise (BuiltinError PyEOFError), self')
       /\ stdin self' = []
       /\ SpiritRealm.has_spirit (spirit_realm self') "x" = true.
Proof.
  assert (Hlen : (List.length (stdin (init false ["1"]))
                  < List.length ["x"; "y"])%nat).
  { simpl. lia. }
  split; [exact Hlen|].
  destruct (ProgramFacts.invocation_out_of_lines ["x"; "y"] MORTAL
              (init false ["1"])
              (fun E => eq_ind MORTAL
                          (fun r => match r with MORTAL => True | _ => False end)
                          I ASTRAL E)
              (fun E => eq_ind MORTAL
                          (fun r => match r with MORTAL => True | _ => False end)
                          I DIVINE E)
              Hlen)
    as [self' [Hrun [Hin Hbound]]].
  exists self'. split; [exact Hrun|]. split; [exact Hin|].
  apply Hbound. left. reflexivity.
Defined.

(** The fusion of [x] and [y], and the union asked for after it. *)
Lemma manifest_twice_misses_operand_witness :
  fst (execute_statement spirit_and_mortal manifest_fusion) = Return tt
  /\ exists e,
       fst (execute_statement
              (snd (execute_statement spirit_and_mortal manifest_fusion))
              (ManifestNode UNION ["x"; "y"] "w"))
       = Raise e
       /\ kind_of e = MissingOperand.
Proof.
  assert (Hrun : execute_statement spirit_and_mortal manifest_fusion
                 = (Return tt,
                    snd (execute_statement spirit_and_mortal manifest_fusion))).
  { reflexivity. }
  split; [reflexivity|].
  destruct (ProgramFacts.manifest_twice_misses_operand _ _ _ UNION _
              ["x"; "y"] _ "w" Hrun) as [e [He Hk]].
  exists e. rewrite He. split; [reflexivity | exact Hk].
Defined.

(** The fusion of a spirit of the spirit realm and one of the mortal
    realm is bound in one of the three realms. *)
Lemma result_realm_range_witness :
  fst (execute_statement spirit_and_mortal manifest_fusion) = Return tt
  /\ exists r,
       SpiritRealm.get_spirit_realm
         (spirit_realm (snd (execute_statement spirit_and_mortal
                               manifest_fusion))) "z"
       = Return r
       /\ (r = SPIRIT \/ r = SHADOW \/ r = MORTAL).
Proof.
  assert (Hrun : execute_statement spirit_and_mortal manifest_fusion
                 = (Return tt,
                    snd (execute_statement spirit_and_mortal manifest_fusion))).
  { reflexivity. }
  split; [reflexivity|].
  destruct (ProgramFacts.result_realm_range _ _ _ _ _ Hrun)
    as [r [Hr [Hrange _]]].
  exists r. split; [exact Hr | exact Hrange].
Defined.


(** CHANNEL the essence OF x, WEAVE WITH the force OF y, MANIFEST their
    union AS z. *)
Lemma manifestation_takes_every_staged_variable_witness :
  let calls :=
    [SpellTransformer.Channeling
       [SpellTransformer.Token "CHANNEL" "CHANNEL";
        SpellTransformer.Token "IDENTIFIER" "x"];
     SpellTransformer.Weaving
       [SpellTransformer.Token "WEAVE" "WEAVE";
        SpellTransformer.Token "IDENTIFIER" "y"]] in
  let children :=
    [SpellTransformer.Token "MANIFEST" "MANIFEST";
     SpellTransformer.AnOperation UNION;
     SpellTransformer.Token "AS" "AS";
     SpellTransformer.Token "IDENTIFIER" "z"] in
  SpellTransformer.stage_all SpellTransformer.init calls
  = Some (["x"; "y"], SpellTransformer.mk ["x"; "y"])
  /\ SpellTransformer.node_of
       (fst (SpellTransformer.manifestation
               (SpellTransformer.mk ["x"; "y"]) children))
     = Some (ManifestNode UNION ["x"; "y"] "z")
  /\ SpellTransformer.operands
       (fst (SpellTransformer.manifestation
               (SpellTransformer.mk ["x"; "y"]) children))
     = ["x"; "y"].
Proof.
  cbv zeta. split; [reflexivity|]. split; [reflexivity|].
  destruct (ParserFacts.manifestation_takes_every_staged_variable
              SpellTransformer.init (SpellTransformer.mk ["x"; "y"])
              [SpellTransformer.Channeling
                 [SpellTransformer.Token "CHANNEL" "CHANNEL";
                  SpellTransformer.Token "IDENTIFIER" "x"];
               SpellTransformer.Weaving
                 [SpellTransformer.Token "WEAVE" "WEAVE";
                  SpellTransformer.Token "IDENTIFIER" "y"]]
              ["x"; "y"]
              [SpellTransformer.Token "MANIFEST" "MANIFEST";
               SpellTransformer.AnOperation UNION;
               SpellTransformer.Token "AS" "AS";
               SpellTransformer.Token "IDENTIFIER" "z"]
              [] eq_refl) as [Hops _].
  exact Hops.
Defined.

End Instances.
